(** * proc_parser.py: from vendor CSV sheets to [Processor { ... }] blocks

    A shallow embedding of [src/proc_parser.py] and the properties of its
    row pipeline.

    Modelling conventions.
    - A Python [str] is a [string] holding the UTF-8 encoding of the text.
      The three regular expressions, [split(";")] and the string
      comparisons of the script only look at ASCII characters, and a byte
      below 128 never occurs inside a multi-byte UTF-8 sequence, so they act
      on the encoding exactly as they act on the code points.
    - Python integers are unbounded: [Z].  [int] of a text follows
      CPython 3.11: it refuses more than 4300 digits and reads the decimal
      digits and white space of Unicode 14.0.  [str] has the same cap, which
      no integer the script prints can reach, being read from at most 4300
      digits.
    - A Python [float] is an IEEE binary64 value; the ones the script
      builds are non-negative, so they are kept as [mant * 2 ^ expo] (or
      infinity) and rounded with exact integer arithmetic.
    - An uncaught exception ends the run: every step returns the state it
      reached together with [Ok] or [Raise].  [assert] statements are
      enabled (no [-O]). *)

From Stdlib Require Import ZArith String Ascii List Lia DecimalString.
From stdpp Require Import gmap strings list.

#[local] Set Warnings "-clear-no-such-hyp".

Local Open Scope Z_scope.

(** ** Characters and strings *)

Definition nl : string := String "010"%char EmptyString.
Definition dq : string := String "034"%char EmptyString.

(** [[0-9]] in a [str] pattern matches the ten ASCII digits only. *)
Definition is_digit (c : ascii) : bool :=
  (("0" <=? c) && (c <=? "9"))%char.

Definition digit_value (c : ascii) : Z :=
  Z.of_N (N_of_ascii c) - 48.

(** Greedy [[0-9]*]: the longest run of digits at the head, and what follows. *)
Fixpoint span_digits (s : string) : string * string :=
  match s with
  | String c s' =>
      if is_digit c
      then let (d, r) := span_digits s' in (String c d, r)
      else (EmptyString, s)
  | EmptyString => (EmptyString, EmptyString)
  end.

(** The decimal value of a run of ASCII digits. *)
Definition int_of_digits (s : string) : Z :=
  fold_left (fun acc c => 10 * acc + digit_value c) (list_ascii_of_string s) 0.

(** [str(n)] for an integer, also what ["{}".format(n)] prints. *)
Definition str_of_int (n : Z) : string :=
  NilZero.string_of_int (Z.to_int n).

(** ** Regular expressions

    A compiled pattern is modelled by its matcher at the head of a string:
    the text of group 1 and the number of characters the whole match
    consumes.  None of the three patterns matches the empty string. *)

Definition regex := string -> option (string * nat).

(** [[0-9]+\.[0-9]{2}] at the head of [s].  Taking the longest digit run is
    what backtracking finds too: with fewer digits the next character is a
    digit, never the point. *)
Definition match_decimal (s : string) : option (string * string) :=
  match span_digits s with
  | (String _ _ as d, String "." (String a (String b r))) =>
      if is_digit a && is_digit b
      then Some (d +:+ String "." (String a (String b EmptyString)), r)
      else None
  | _ => None
  end.

(** [pricere = re.compile("\$([0-9]+\.[0-9]{2})")] *)
Definition pricere : regex := fun s =>
  match s with
  | String "$" s' =>
      match match_decimal s' with
      | Some (g, _) => Some (g, S (String.length g))
      | None => None
      end
  | _ => None
  end.

(** [ghzre = re.compile("([0-9]+\.[0-9]{2}) GHz")] *)
Definition ghzre : regex := fun s =>
  match match_decimal s with
  | Some (g, String " " (String "G" (String "H" (String "z" _)))) =>
      Some (g, (String.length g + 4)%nat)
  | _ => None
  end.

(** [numberre = re.compile("([0-9]+)")] *)
Definition numberre : regex := fun s =>
  match span_digits s with
  | (String _ _ as d, _) => Some (d, String.length d)
  | _ => None
  end.

(** [r.findall(s)]: scan from the left; at a match keep group 1 and resume
    after the match, otherwise move one character on.  [skip] counts the
    characters of the current match still to pass over. *)
Fixpoint findall_from (r : regex) (skip : nat) (s : string) : list string :=
  match s with
  | EmptyString => []
  | String _ s' =>
      match skip with
      | S k => findall_from r k s'
      | O =>
          match r s with
          | Some (g, len) => g :: findall_from r (Nat.pred len) s'
          | None => findall_from r 0 s'
          end
      end
  end.

Definition findall (r : regex) (s : string) : list string :=
  findall_from r 0 s.

(** ** Exceptions *)

(** The three [assert] statements of [process], by what they guard. *)
Inductive assert_site :=
  | DuplicateName        (* assert data["Name"] not in observed *)
  | UnrecognizedFamily   (* assert pc != pc, pc *)
  | InvalidScalability.  (* assert scale in [1, 2, 4, 8] *)

Inductive exn :=
  | KeyError (key : string)
  | IndexError
  | ValueError
  | AssertionError (site : assert_site) (msg : option string)
  | FileNotFoundError (fn : string).

Inductive result (A : Type) :=
  | Ok (a : A)
  | Raise (e : exn).
Arguments Ok {A} a.
Arguments Raise {A} e.

(** ** [int(str)]

    As CPython 3.11 does it.  A text with a character outside ASCII is
    first rewritten ([_PyUnicode_TransformDecimalAndSpaceToASCII]): white
    space becomes a blank, a decimal digit of any script its ASCII digit,
    and any other such character makes the conversion fail.  Then: white
    space, an optional sign, decimal digits with single underscores between
    them, white space.  More than [int_max_str_digits] digits are refused.
    Every failure is a [ValueError]. *)

(** [sys.int_max_str_digits], which the script leaves at its default. *)
Definition int_max_str_digits : nat := 4300.

(** The white space outside ASCII ([str.isspace]). *)
Definition unicode_spaces : list N :=
  [ 0x85; 0xA0; 0x1680; 0x2000; 0x2001; 0x2002; 0x2003; 0x2004; 0x2005; 0x2006;
    0x2007; 0x2008; 0x2009; 0x200A; 0x2028; 0x2029; 0x202F; 0x205F; 0x3000 ]%N.

(** The digit zero of each run of ten decimal digits outside ASCII
    (Unicode 14.0, the tables of CPython 3.11). *)
Definition decimal_zeros : list N :=
  [ 0x660; 0x6F0; 0x7C0; 0x966; 0x9E6; 0xA66; 0xAE6; 0xB66; 0xBE6; 0xC66; 0xCE6;
    0xD66; 0xDE6; 0xE50; 0xED0; 0xF20; 0x1040; 0x1090; 0x17E0; 0x1810; 0x1946;
    0x19D0; 0x1A80; 0x1A90; 0x1B50; 0x1BB0; 0x1C40; 0x1C50; 0xA620; 0xA8D0;
    0xA900; 0xA9D0; 0xA9F0; 0xAA50; 0xABF0; 0xFF10; 0x104A0; 0x10D30; 0x11066;
    0x110F0; 0x11136; 0x111D0; 0x112F0; 0x11450; 0x114D0; 0x11650; 0x116C0;
    0x11730; 0x118E0; 0x11950; 0x11C50; 0x11D50; 0x11DA0; 0x16A60; 0x16AC0;
    0x16B50; 0x1D7CE; 0x1D7D8; 0x1D7E2; 0x1D7EC; 0x1D7F6; 0x1E140; 0x1E2F0;
    0x1E950; 0x1FBF0 ]%N.

(** What the rewriting puts for a character outside ASCII; [None] where it
    gives up. *)
Definition ascii_of_code_point (cp : N) : option ascii :=
  if existsb (N.eqb cp) unicode_spaces then Some " "%char
  else
    match find (fun z => (z <=? cp) && (cp <=? z + 9))%N decimal_zeros with
    | Some z => Some (ascii_of_N (48 + (cp - z)))
    | None => None
    end.

(** The six low bits of a UTF-8 continuation byte. *)
Definition continuation (c : ascii) : option N :=
  let n := N_of_ascii c in
  if ((128 <=? n) && (n <? 192))%N then Some (n - 128)%N else None.

(** The rewriting, on the UTF-8 encoding of the text. *)
Fixpoint to_ascii (s : string) : option string :=
  match s with
  | EmptyString => Some EmptyString
  | String c s1 =>
      let n := N_of_ascii c in
      if (n <? 128)%N then String c <$> to_ascii s1
      else if (n <? 192)%N then None
      else if (n <? 224)%N then
        match s1 with
        | String c1 s2 =>
            x1 ← continuation c1;
            a ← ascii_of_code_point ((n - 192) * 64 + x1)%N;
            String a <$> to_ascii s2
        | _ => None
        end
      else if (n <? 240)%N then
        match s1 with
        | String c1 (String c2 s3) =>
            x1 ← continuation c1;
            x2 ← continuation c2;
            a ← ascii_of_code_point ((n - 224) * 4096 + x1 * 64 + x2)%N;
            String a <$> to_ascii s3
        | _ => None
        end
      else if (n <? 248)%N then
        match s1 with
        | String c1 (String c2 (String c3 s4)) =>
            x1 ← continuation c1;
            x2 ← continuation c2;
            x3 ← continuation c3;
            a ← ascii_of_code_point
                  ((n - 240) * 262144 + x1 * 4096 + x2 * 64 + x3)%N;
            String a <$> to_ascii s4
        | _ => None
        end
      else None
  end.

Definition is_space (c : ascii) : bool :=
  let n := N_of_ascii c in ((9 <=? n) && (n <=? 13) || (n =? 32))%N.

Fixpoint lstrip (s : string) : string :=
  match s with
  | String c s' => if is_space c then lstrip s' else s
  | EmptyString => EmptyString
  end.

(** The digits after the first one; [prev_us] says the previous character
    was an underscore, [digits] counts the digits read so far. *)
Fixpoint int_body (prev_us : bool) (digits : nat) (acc : Z) (s : string)
  : option (Z * nat * string) :=
  match s with
  | String c s' =>
      if is_digit c then int_body false (S digits) (10 * acc + digit_value c) s'
      else if Ascii.eqb c "_" then
        if prev_us then None else int_body true digits acc s'
      else if prev_us then None else Some (acc, digits, s)
  | EmptyString => if prev_us then None else Some (acc, digits, EmptyString)
  end.

Definition int_unsigned (s : string) : option Z :=
  match s with
  | String c s' =>
      if is_digit c then
        match int_body false 1 (digit_value c) s' with
        | Some (n, digits, r) =>
            if (digits <=? int_max_str_digits)%nat then
              match lstrip r with EmptyString => Some n | _ => None end
            else None
        | None => None
        end
      else None
  | EmptyString => None
  end.

(** [int] of an ASCII text. *)
Definition int_of_ascii (s : string) : option Z :=
  match lstrip s with
  | String "+" s' => int_unsigned s'
  | String "-" s' => Z.opp <$> int_unsigned s'
  | s' => int_unsigned s'
  end.

Definition py_int (s : string) : result Z :=
  match to_ascii s ≫= int_of_ascii with
  | Some n => Ok n
  | None => Raise ValueError
  end.

(** [list(map(int, l))]: the first conversion that fails ends it. *)
Fixpoint map_int (l : list string) : result (list Z) :=
  match l with
  | [] => Ok []
  | g :: l' =>
      match py_int g with
      | Ok n =>
          match map_int l' with
          | Ok ns => Ok (n :: ns)
          | Raise e => Raise e
          end
      | Raise e => Raise e
      end
  end.

(** ** [float] and ["{:.2f}"]

    [float] is only ever applied to group 1 of [pricere]: digits, a point,
    two digits.  Its value is the binary64 number nearest to that decimal
    (ties to even), or infinity past the largest finite one. *)

Inductive pyfloat :=
  | Finite (mant expo : Z)   (* mant * 2 ^ expo, with 0 <= mant <= 2 ^ 53 *)
  | Inf.

(** Nearest integer to [p / q], ties to even ([0 <= p], [0 < q]). *)
Definition round_half_even (p q : Z) : Z :=
  let m := p / q in
  let r := p mod q in
  match 2 * r ?= q with
  | Lt => m
  | Gt => m + 1
  | Eq => if Z.even m then m else m + 1
  end.

(** [p / q * 2 ^ (- e)] as a fraction of integers. *)
Definition scale2 (p q e : Z) : Z * Z :=
  if 0 <=? e then (p, q * 2 ^ e) else (p * 2 ^ (- e), q).

(** The binary64 value nearest to [p / q], for [0 <= p], [0 < q] and a
    quotient that is zero or at least [2 ^ -1022] (no subnormals arise from
    a decimal with two fractional digits). *)
Definition binary64_of_ratio (p q : Z) : pyfloat :=
  if p =? 0 then Finite 0 0
  else
    let e0 := Z.log2 p - Z.log2 q - 52 in
    let e := (let (n, d) := scale2 p q e0 in if n / d <? 2 ^ 52 then e0 - 1 else e0) in
    let (n, d) := scale2 p q e in
    let m := round_half_even n d in
    if 2 ^ 1024 <=? m * 2 ^ Z.max e 0 then Inf else Finite m e.

Definition float_of_decimal (g : string) : pyfloat :=
  let (d, r) := span_digits g in
  match r with
  | String "." f =>
      binary64_of_ratio (int_of_digits (d +:+ f)) (10 ^ Z.of_nat (String.length f))
  | _ => binary64_of_ratio (int_of_digits d) 1
  end.

Definition two_digits (n : Z) : string :=
  if n <? 10 then "0" +:+ str_of_int n else str_of_int n.

(** ["{:.2f}".format(x)]: the exact value of [x] rounded to hundredths,
    ties to even. *)
Definition format_2f (x : pyfloat) : string :=
  match x with
  | Inf => "inf"
  | Finite m e =>
      let (n, d) := scale2 (100 * m) 1 (- e) in
      let k := round_half_even n d in
      str_of_int (k / 100) +:+ "." +:+ two_digits (k mod 100)
  end.

(** ** [str.splitlines] and [str.split(";")] *)

(** Length of the line boundary at the head of [s], 0 when there is none:
    LF, VT, FF, CR, CR LF, FS, GS, RS, and the encodings of NEL (U+0085),
    LS (U+2028) and PS (U+2029). *)
Definition line_break_len (s : string) : nat :=
  match s with
  | String "013" (String "010" _) => 2
  | String ("010" | "011" | "012" | "013" | "028" | "029" | "030") _ => 1
  | String "194" (String "133" _) => 2
  | String "226" (String "128" (String ("168" | "169") _)) => 3
  | _ => 0
  end%char%nat.

Fixpoint splitlines_from (skip : nat) (cur : string) (s : string) : list string :=
  match s with
  | EmptyString => match cur with EmptyString => [] | _ => [cur] end
  | String c s' =>
      match skip with
      | S k => splitlines_from k cur s'
      | O =>
          match line_break_len s with
          | O => splitlines_from 0 (cur +:+ String c EmptyString) s'
          | S k => cur :: splitlines_from k EmptyString s'
          end
      end
  end.

Definition splitlines (s : string) : list string :=
  splitlines_from 0 EmptyString s.

Fixpoint split (sep : ascii) (s : string) : list string :=
  match s with
  | EmptyString => [EmptyString]
  | String c s' =>
      if Ascii.eqb c sep then EmptyString :: split sep s'
      else match split sep s' with
           | cell :: cells => String c cell :: cells
           | [] => [String c EmptyString]
           end
  end.

(** ** Rows as dictionaries *)

(** [dict(zip(column_header, data))]: pairs up to the shorter list; a
    header name that occurs twice keeps its last cell. *)
Definition dict_zip (column_header data : list string) : gmap string string :=
  fold_left (fun d kv => <[kv.1 := kv.2]> d) (zip column_header data) ∅.

(** ** The run: seen names, output stream, exceptions *)

Record state := State {
  observed : gset string;   (* the module-level [observed] set *)
  stdout : list string;     (* what [print] wrote, oldest first *)
}.

Definition M (A : Type) : Type := state -> state * result A.

Definition ret {A} (a : A) : M A := fun st => (st, Ok a).
Definition raise {A} (e : exn) : M A := fun st => (st, Raise e).
Definition bind {A B} (c : M A) (k : A -> M B) : M B := fun st =>
  match c st with
  | (st', Ok a) => k a st'
  | (st', Raise e) => (st', Raise e)
  end.
Definition lift {A} (r : result A) : M A := fun st => (st, r).

Notation "'do' x <- c ; k" := (bind c (fun x => k))
  (at level 10, x name, c at level 100, k at level 200).
Notation "c ;; k" := (bind c (fun _ => k))
  (at level 100, k at level 200, right associativity).

(** [d[key]] *)
Definition getitem (d : gmap string string) (key : string) : M string :=
  match d !! key with
  | Some v => ret v
  | None => raise (KeyError key)
  end.

(** [l[0]] *)
Definition first {A} (l : list A) : M A :=
  match l with
  | x :: _ => ret x
  | [] => raise IndexError
  end.

(** [max(l)] of integers; [ValueError] on an empty sequence. *)
Definition py_max (l : list Z) : M Z :=
  match l with
  | x :: l' => ret (fold_left Z.max l' x)
  | [] => raise ValueError
  end.

Definition assert (b : bool) (site : assert_site) (msg : option string) : M unit :=
  if b then ret tt else raise (AssertionError site msg).

Definition observed_update (name : string) : M unit := fun st =>
  (State ({[name]} ∪ observed st) (stdout st), Ok tt).

Definition in_observed (name : string) : M bool := fun st =>
  (st, Ok (bool_decide (name ∈ observed st))).

Definition print (s : string) : M unit := fun st =>
  (State (observed st) (stdout st ++ [s]), Ok tt).

(** ** The output template *)

(** The ten arguments of [formstring.format], in order. *)
Record fields := Fields {
  f_name : string;
  f_price : pyfloat;
  f_clock_rate : string;
  f_cores : Z;
  f_threads : Z;
  f_avx512_fma_units : Z;
  f_typ : string;
  f_scalability : Z;
  f_mem_speed : Z;
  f_mem_channels : Z;
}.

Definition formstring_format (a : fields) : string :=
  "Processor {" +:+ nl +:+
  "    manufacturer: " +:+ dq +:+ "Intel" +:+ dq +:+ "," +:+ nl +:+
  "    name: " +:+ dq +:+ f_name a +:+ dq +:+ "," +:+ nl +:+
  "    price: " +:+ format_2f (f_price a) +:+ "," +:+ nl +:+
  "    clock_rate: " +:+ f_clock_rate a +:+ "," +:+ nl +:+
  "    turbo_rate: None," +:+ nl +:+
  "    avx512_rate: None," +:+ nl +:+
  "    avx512_turbo_rate: None," +:+ nl +:+
  "    cores: " +:+ str_of_int (f_cores a) +:+ "," +:+ nl +:+
  "    threads: " +:+ str_of_int (f_threads a) +:+ "," +:+ nl +:+
  "    avx512_fma_units: Some(" +:+ str_of_int (f_avx512_fma_units a) +:+ ")," +:+ nl +:+
  "    typ: ProcessorType::" +:+ f_typ a +:+ "," +:+ nl +:+
  "    scalability: " +:+ str_of_int (f_scalability a) +:+ "," +:+ nl +:+
  "    mem_support: MemoryType::DDR4_" +:+ str_of_int (f_mem_speed a) +:+ "," +:+ nl +:+
  "    mem_channels: " +:+ str_of_int (f_mem_channels a) +:+ "," +:+ nl +:+
  "},".

(** ** [process] *)

(** The [if]/[elif] chain on [data["Product Collection"]].  The last branch
    is [assert pc != pc, pc], which cannot pass. *)
Definition family (pc : string) : M string :=
  if String.eqb pc "Intel® Xeon® Scalable Processors" then ret "XeonScalable"
  else if String.eqb pc "2nd Generation Intel® Xeon® Scalable Processors" then ret "XeonScalableV2"
  else if String.eqb pc "Intel® Xeon® W Processor" then ret "XeonW"
  else if String.eqb pc "Intel® Xeon® D Processor" then ret "XeonD"
  else assert (negb (String.eqb pc pc)) UnrecognizedFamily (Some pc) ;; ret EmptyString.

(** [if max_mem_speed == 2666: max_mem_speed = 2667] *)
Definition correct_speed (max_mem_speed : Z) : Z :=
  if max_mem_speed =? 2666 then 2667 else max_mem_speed.

(** [scale in [1, 2, 4, 8]] *)
Definition scale_ok (scale : Z) : bool :=
  bool_decide (scale ∈ [1; 2; 4; 8]).

(** [float(pricere.findall(cell + "$10000000.00")[0])] *)
Definition price_of_cell (cell : string) : M pyfloat :=
  do m <- first (findall pricere (cell +:+ "$10000000.00"));
  ret (float_of_decimal m).

(** One pass of the loop body over a row dictionary.  A key that was read
    before is not looked up again, the dictionary never changes. *)
Definition process_row (data : gmap string string) : M unit :=
  do cell <- getitem data "Recommended Customer Price";
  do price <- price_of_cell cell;
  do sockets <- getitem data "Sockets Supported";
  if String.eqb sockets EmptyString then ret tt (* continue *) else
  do name <- getitem data "Name";
  do seen <- in_observed name;
  assert (negb seen) DuplicateName None ;;
  observed_update name ;;
  do pc <- getitem data "Product Collection";
  do typ <- family pc;
  let typ := typ +:+ "_" +:+ sockets in
  do cell <- getitem data "Scalability";
  do m <- first (findall numberre cell);
  do scale <- lift (py_int m);
  assert (scale_ok scale) InvalidScalability None ;;
  do speed <- getitem data "Maximum Memory Speed";
  do types <- getitem data "Memory Types";
  do numbers <- lift (map_int (findall numberre (speed +:+ types)));
  do max_mem_speed <- py_max numbers;
  do cell <- getitem data "Max # of Memory Channels";
  do mem_chan <- lift (py_int cell);
  let max_mem_speed := correct_speed max_mem_speed in
  do cell <- getitem data "Processor Base Frequency";
  do clock <- first (findall ghzre cell);
  do cell <- getitem data "# of Cores";
  do cores <- lift (py_int cell);
  do cell <- getitem data "# of Threads";
  do threads <- lift (py_int cell);
  do cell <- getitem data "# of AVX-512 FMA Units";
  do fma <- lift (py_int cell);
  print (formstring_format
           (Fields name price clock cores threads fma typ scale max_mem_speed mem_chan)).

(** [for x in l: body(x)] *)
Fixpoint for_each {A} (body : A -> M unit) (l : list A) : M unit :=
  match l with
  | [] => ret tt
  | x :: l' => body x ;; for_each body l'
  end.

(** [open(fn).read()] against a file system that maps names to text. *)
Definition read_file (fs : gmap string string) (fn : string) : M string :=
  match fs !! fn with
  | Some text => ret text
  | None => raise (FileNotFoundError fn)
  end.

Definition process (fs : gmap string string) (fn : string) : M unit :=
  do text <- read_file fs fn;
  let data := map (split ";") (splitlines text) in
  do column_header <- first data;
  let data := tail data in
  for_each (fun data => process_row (dict_zip column_header data)) data.

(** The two calls at the end of the script. *)
Definition main (fs : gmap string string) : M unit :=
  process fs "xeon_w.csv" ;;
  process fs "xeon_scalable_gen2.csv".

(** The state at process start. *)
Definition initial : state := State ∅ [].

(** ** Vocabulary for the statements *)

(** The row dictionaries the loop of [process] runs over, for a file's text. *)
Definition file_rows (text : string) : list (gmap string string) :=
  match map (split ";") (splitlines text) with
  | column_header :: data => map (dict_zip column_header) data
  | [] => []
  end.

Definition rows_of (fs : gmap string string) (fn : string) : list (gmap string string) :=
  match fs !! fn with
  | Some text => file_rows text
  | None => []
  end.

(** All rows of a run, in the order [main] meets them. *)
Definition run_rows (fs : gmap string string) : list (gmap string string) :=
  rows_of fs "xeon_w.csv" ++ rows_of fs "xeon_scalable_gen2.csv".

(** The row gets past [if data["Sockets Supported"] == "": continue]. *)
Definition non_skipped (data : gmap string string) : Prop :=
  exists sockets, data !! "Sockets Supported" = Some sockets /\ sockets <> EmptyString.

(** The row is dropped by that test: it has a price cell to extract from
    and an empty socket cell. *)
Definition skipped (data : gmap string string) : Prop :=
  is_Some (data !! "Recommended Customer Price") /\
  data !! "Sockets Supported" = Some EmptyString.

(** The vendor strings of the [if]/[elif] chain with their tags. *)
Definition known_families : list (string * string) :=
  [ ("Intel® Xeon® Scalable Processors", "XeonScalable");
    ("2nd Generation Intel® Xeon® Scalable Processors", "XeonScalableV2");
    ("Intel® Xeon® W Processor", "XeonW");
    ("Intel® Xeon® D Processor", "XeonD") ].

(** The name a row adds to [observed] once it is past the skip test. *)
Definition row_name (data : gmap string string) : gset string :=
  match data !! "Sockets Supported", data !! "Name" with
  | Some sockets, Some name => if String.eqb sockets EmptyString then ∅ else {[name]}
  | _, _ => ∅
  end.

(** [m] is the greatest element of the non-empty list [l]. *)
Definition is_max (m : Z) (l : list Z) : Prop :=
  m ∈ l /\ Forall (fun x => x <= m) l.

(** How the ten template arguments of a printed row come from its cells.
    The numbers [numberre] finds have at most [int_max_str_digits] digits,
    or [int] would have refused them. *)
Record row_values (data : gmap string string) (a : fields) : Prop := {
  rv_name : data !! "Name" = Some (f_name a);
  rv_price : exists cell m ms,
      data !! "Recommended Customer Price" = Some cell /\
      findall pricere (cell +:+ "$10000000.00") = m :: ms /\
      f_price a = float_of_decimal m;
  rv_typ : exists sockets pc tag,
      data !! "Sockets Supported" = Some sockets /\ sockets <> EmptyString /\
      data !! "Product Collection" = Some pc /\
      (pc, tag) ∈ known_families /\
      f_typ a = tag +:+ "_" +:+ sockets;
  rv_scalability : exists cell m ms,
      data !! "Scalability" = Some cell /\
      findall numberre cell = m :: ms /\
      f_scalability a = int_of_digits m /\
      f_scalability a ∈ [1; 2; 4; 8];
  rv_mem_speed : exists speed types m,
      data !! "Maximum Memory Speed" = Some speed /\
      data !! "Memory Types" = Some types /\
      is_max m (map int_of_digits (findall numberre (speed +:+ types))) /\
      f_mem_speed a = correct_speed m;
  rv_scalability_digits : exists cell m ms,
      data !! "Scalability" = Some cell /\
      findall numberre cell = m :: ms /\
      (String.length m <= int_max_str_digits)%nat;
  rv_mem_speed_digits : exists speed types,
      data !! "Maximum Memory Speed" = Some speed /\
      data !! "Memory Types" = Some types /\
      Forall (fun g => (String.length g <= int_max_str_digits)%nat)
             (findall numberre (speed +:+ types));
  rv_mem_channels : exists cell,
      data !! "Max # of Memory Channels" = Some cell /\
      py_int cell = Ok (f_mem_channels a);
  rv_clock_rate : exists cell ms,
      data !! "Processor Base Frequency" = Some cell /\
      findall ghzre cell = f_clock_rate a :: ms;
  rv_cores : exists cell,
      data !! "# of Cores" = Some cell /\ py_int cell = Ok (f_cores a);
  rv_threads : exists cell,
      data !! "# of Threads" = Some cell /\ py_int cell = Ok (f_threads a);
  rv_avx512_fma_units : exists cell,
      data !! "# of AVX-512 FMA Units" = Some cell /\
      py_int cell = Ok (f_avx512_fma_units a);
}.

(** The state a row is in once its name has been recorded. *)
Definition named (name : string) (st : state) : state :=
  State ({[name]} ∪ observed st) (stdout st).

Definition all_digits (s : string) : Prop :=
  forall c, In c (list_ascii_of_string s) -> is_digit c = true.

(** Digits, a point, two digits. *)
Definition currency (g : string) : Prop :=
  exists (d : string) (a b : ascii),
    g = String.append d (String "." (String a (String b EmptyString))) /\
    d <> EmptyString /\ all_digits d /\ is_digit a = true /\ is_digit b = true.

(** [m] is group 1 of the leftmost match of [r] in [s]. *)
Definition first_match (r : regex) (s m : string) : Prop :=
  exists pre t len,
    s = pre +:+ t /\ r t = Some (m, len) /\
    forall p1 p2, pre = p1 +:+ p2 -> p2 <> EmptyString -> r (p2 +:+ t) = None.

(** A computation that never prints. *)
Definition quiet {A} (c : M A) : Prop :=
  forall st, stdout (c st).1 = stdout st.

(** A computation that never removes a name from [observed]. *)
Definition growing {A} (c : M A) : Prop :=
  forall st, observed st ⊆ observed (c st).1.

(** A computation that has printed nothing when it raises. *)
Definition quiet_on_raise {A} (c : M A) : Prop :=
  forall st st' e, c st = (st', Raise e) -> stdout st' = stdout st.

(** ** Sample sheets *)

Definition full_header : string :=
  "Name;Recommended Customer Price;Sockets Supported;Product Collection;Scalability;Maximum Memory Speed;Memory Types;Max # of Memory Channels;Processor Base Frequency;# of Cores;# of Threads;# of AVX-512 FMA Units".

Definition gold_6248_row : string :=
  "Gold 6248;$3,043.00;1S;Intel® Xeon® Scalable Processors;Scalability 1S;2933;DDR4-2933;6;2.50 GHz;20;40;1".

Definition gold_6248_sheet : string :=
  full_header +:+ nl +:+ gold_6248_row.

(** The block the scenario expects, with the price read as 3043.00. *)
Definition gold_6248_expected : fields :=
  Fields "Gold 6248" (float_of_decimal "3043.00") "2.50" 20 40 1
         "XeonScalable_1S" 1 2933 6.

(** The same block with the price the appended suffix supplies. *)
Definition gold_6248_printed : fields :=
  Fields "Gold 6248" (float_of_decimal "10000000.00") "2.50" 20 40 1
         "XeonScalable_1S" 1 2933 6.

(** A workstation part listed twice under one name: once without a socket
    count, once with. *)
Definition w_2295_no_socket : string :=
  "W-2295;$1333.00;;Intel® Xeon® W Processor;;2933;DDR4-2933;4;3.00 GHz;18;36;2".

Definition w_2295_row : string :=
  "W-2295;$1333.00;1S;Intel® Xeon® W Processor;1S Only;2933;DDR4-2933;4;3.00 GHz;18;36;2".

Definition w_2295_printed : fields :=
  Fields "W-2295" (float_of_decimal "1333.00") "3.00" 18 36 2 "XeonW_1S" 1 2933 4.

(** A row whose scalability text mentions 3 after its first number. *)
Definition gold_5218_row : string :=
  "Gold 5218;$1273.00;2S;2nd Generation Intel® Xeon® Scalable Processors;2S (3 UPI links);2666;DDR4-2666;6;2.30 GHz;16;32;1".

Definition gold_5218_printed : fields :=
  Fields "Gold 5218" (float_of_decimal "1273.00") "2.30" 16 32 1
         "XeonScalableV2_2S" 2 2667 6.

(** A row whose scalability is 3. *)
Definition three_socket_row : string :=
  "Gold 5220;$1555.00;2S;2nd Generation Intel® Xeon® Scalable Processors;3S;2666;DDR4-2666;6;2.20 GHz;18;36;1".

(** A row of an unlisted product family. *)
Definition e_2288g_row : string :=
  "E-2288G;$539.00;1S;Intel® Xeon® E Processor;1S Only;2666;DDR4-2666;2;3.70 GHz;8;16;0".

(** The same part listed under a family string of the chain, and its block. *)
Definition e_2288g_listed_row : string :=
  "E-2288G;$539.00;1S;Intel® Xeon® W Processor;1S Only;2666;DDR4-2666;2;3.70 GHz;8;16;0".

Definition e_2288g_listed_printed : fields :=
  Fields "E-2288G" (float_of_decimal "539.00") "3.70" 8 16 0 "XeonW_1S" 1 2667 2.

(** A sheet whose socket column comes before the price column, and a data
    line that stops after an empty socket cell. *)
Definition socket_first_header : string :=
  "Name;Sockets Supported;Recommended Customer Price".

Definition short_row : string := "W-2295;".

(** A data line that stops after the price cell. *)
Definition price_only_row : string := "W-2295;$1333.00".

Definition sheet (header : string) (rows : list string) : string :=
  header +:+ nl +:+ String.concat nl rows.

Definition row_dict (header row : string) : gmap string string :=
  dict_zip (split ";" header) (split ";" row).

(** A file system with the two sheets the script opens. *)
Definition two_sheets (xeon_w xeon_scalable_gen2 : string) : gmap string string :=
  <["xeon_w.csv" := xeon_w]> (<["xeon_scalable_gen2.csv" := xeon_scalable_gen2]> ∅).

(** ** Vocabulary for the loader and the exceptions *)

(** The list of pairs a row dictionary is built from. *)
Definition dict_of_pairs (l : list (string * string)) : gmap string string :=
  fold_left (fun d kv => <[kv.1 := kv.2]> d) l ∅.

(** The twelve keys the loop body reads. *)
Definition columns : list string :=
  [ "Recommended Customer Price"; "Sockets Supported"; "Name";
    "Product Collection"; "Scalability"; "Maximum Memory Speed";
    "Memory Types"; "Max # of Memory Channels"; "Processor Base Frequency";
    "# of Cores"; "# of Threads"; "# of AVX-512 FMA Units" ].

(** The exceptions a row can end with. *)
Definition row_exception (data : gmap string string) (e : exn) : Prop :=
  match e with
  | KeyError key => key ∈ columns /\ data !! key = None
  | IndexError | ValueError => True
  | AssertionError DuplicateName msg => msg = None
  | AssertionError UnrecognizedFamily msg => msg = data !! "Product Collection"
  | AssertionError InvalidScalability msg => msg = None
  | FileNotFoundError _ => False
  end.

(** Every exception of the computation satisfies [P]. *)
Definition raises_only {A} (P : exn -> Prop) (c : M A) : Prop :=
  forall st st' e, c st = (st', Raise e) -> P e.

(** The row has a non-empty socket cell. *)
Definition has_sockets (data : gmap string string) : bool :=
  match data !! "Sockets Supported" with
  | Some sockets => negb (String.eqb sockets EmptyString)
  | None => false
  end.

Definition no_char (c : ascii) (s : string) : Prop :=
  ~ In c (list_ascii_of_string s).

Definition no_digit (s : string) : Prop :=
  forall c, In c (list_ascii_of_string s) -> is_digit c = false.

(** No line boundary starts anywhere in the text. *)
Fixpoint no_break (s : string) : bool :=
  match s with
  | EmptyString => true
  | String _ s' => Nat.eqb (line_break_len s) 0 && no_break s'
  end.

(** A cell that can be written into a sheet as it is: no line boundary and
    no semicolon. *)
Definition safe_cell (s : string) : Prop :=
  no_break s = true /\ no_char ";" s.

(** Writing a sheet: cells joined by semicolons, each line ended by
    [eol]. *)
Definition csv_line (cells : list string) : string :=
  String.concat ";" cells.

Fixpoint csv_text (eol : string) (lines : list (list string)) : string :=
  match lines with
  | [] => EmptyString
  | cells :: lines' => csv_line cells +:+ eol +:+ csv_text eol lines'
  end.

Definition crlf : string := String "013" (String "010" EmptyString).

(** * Properties *)

(** ** Strings *)

Lemma append_nil_l (s : string) : EmptyString +:+ s = s.
Proof. reflexivity. Qed.

Lemma append_cons (a : ascii) (s t : string) :
  String a s +:+ t = String a (s +:+ t).
Proof. reflexivity. Qed.

Lemma append_assoc (s t u : string) : (s +:+ t) +:+ u = s +:+ (t +:+ u).
Proof.
  induction s as [|a s IH]; [reflexivity|].
  rewrite !append_cons. now f_equal.
Qed.

(** ** Digits and the patterns *)

Lemma span_digits_app_stop (s t : string) (c : ascii) :
  is_digit c = false ->
  span_digits (s +:+ String c t) =
    let (d, r) := span_digits s in (d, r +:+ String c t).
Proof.
  intros Hc. induction s as [|a s IH].
  - rewrite append_nil_l. cbn [span_digits]. now rewrite Hc.
  - rewrite append_cons. cbn [span_digits].
    destruct (is_digit a); [|reflexivity].
    rewrite IH. now destruct (span_digits s).
Qed.

(** A match of the decimal pattern that is cut short by a following [$]
    is not completed by it. *)
Lemma match_decimal_app_dollar (s t : string) :
  match_decimal s = None ->
  match_decimal (s +:+ String "$" t) = None.
Proof.
  unfold match_decimal. rewrite span_digits_app_stop by reflexivity.
  destruct (span_digits s) as [d r].
  destruct d as [|d0 d]; [reflexivity|].
  destruct r as [|r0 r]; [reflexivity|]. rewrite append_cons.
  destruct (Ascii.eqb_spec r0 "."%char) as [->|Hne].
  - destruct r as [|a [|b r]]; rewrite ?append_cons, ?append_nil_l.
    + now destruct t.
    + now destruct (is_digit a).
    + now destruct (is_digit a && is_digit b).
  - intros _. destruct r0 as [[] [] [] [] [] [] [] []]; try reflexivity; now destruct Hne.
Qed.

Lemma pricere_app_dollar (c : ascii) (s t : string) :
  pricere (String c s) = None ->
  pricere (String c s +:+ String "$" t) = None.
Proof.
  rewrite append_cons. unfold pricere.
  destruct c as [[] [] [] [] [] [] [] []]; try reflexivity.
  destruct (match_decimal s) as [[g r]|] eqn:E; [discriminate|].
  now rewrite match_decimal_app_dollar.
Qed.

Lemma findall_cons (r : regex) (c : ascii) (s : string) :
  findall r (String c s) =
    match r (String c s) with
    | Some (g, len) => g :: findall_from r (Nat.pred len) s
    | None => findall r s
    end.
Proof. reflexivity. Qed.

(** The first match of [pricere] in [pre + "$" + t] when [pre] has none is
    where the dollar sign stands, or past it. *)
Lemma findall_pricere_skip (pre t : string) :
  findall pricere pre = [] ->
  findall pricere (pre +:+ String "$" t) = findall pricere (String "$" t).
Proof.
  induction pre as [|c pre IH]; [reflexivity|].
  intros Hpre. rewrite findall_cons in Hpre.
  destruct (pricere (String c pre)) as [[g len]|] eqn:E; [discriminate|].
  pose proof (pricere_app_dollar c pre t E) as E'.
  rewrite append_cons in E' |- *. rewrite findall_cons, E'. auto.
Qed.

(** The appended ["$10000000.00"] always leaves a match to take. *)
Lemma findall_pricere_sentinel (cell : string) :
  exists m ms, findall pricere (cell +:+ "$10000000.00") = m :: ms.
Proof.
  induction cell as [|c cell IH].
  - now exists "10000000.00", [].
  - rewrite append_cons, findall_cons.
    destruct (pricere _) as [[g len]|]; eauto.
Qed.

(** Every element of [r.findall(s)] is group 1 of a match of [r]. *)
Lemma findall_from_groups (r : regex) (s g : string) (skip : nat) :
  g ∈ findall_from r skip s -> exists t len, r t = Some (g, len).
Proof.
  revert skip. induction s as [|c s IH]; intros skip; cbn [findall_from].
  - intros H. now apply elem_of_nil in H.
  - destruct skip as [|k]; [|apply IH].
    destruct (r (String c s)) as [[g' len]|] eqn:E; [|apply IH].
    intros H. apply elem_of_cons in H as [->|H]; eauto.
Qed.

Lemma span_digits_all (s : string) :
  forall c, In c (list_ascii_of_string (span_digits s).1) -> is_digit c = true.
Proof.
  induction s as [|a s IH]; cbn [span_digits]; [now intros c []|].
  destruct (is_digit a) eqn:Ha; [|now intros c []].
  destruct (span_digits s) as [d r]. cbn. intros c [<-|Hc]; auto.
Qed.

Lemma is_digit_ascii (c : ascii) : is_digit c = true -> (N_of_ascii c <? 128)%N = true.
Proof. destruct c as [[] [] [] [] [] [] [] []]; intros H; try discriminate H; reflexivity. Qed.

(** A run of ASCII digits is left as it is by the rewriting. *)
Lemma to_ascii_digits (s : string) : all_digits s -> to_ascii s = Some s.
Proof.
  induction s as [|c s IH]; intros Hs; [reflexivity|]. cbn [to_ascii].
  rewrite (is_digit_ascii c) by (apply Hs; now left).
  rewrite IH; [reflexivity|]. intros c' Hc'. apply Hs. now right.
Qed.

Lemma int_body_digits (s : string) (digits : nat) (acc : Z) :
  all_digits s ->
  int_body false digits acc s =
    Some (fold_left (fun a c => 10 * a + digit_value c) (list_ascii_of_string s) acc,
          (digits + String.length s)%nat, EmptyString).
Proof.
  revert digits acc. induction s as [|c s IH]; intros digits acc Hs.
  - cbn. now rewrite Nat.add_0_r.
  - cbn [int_body list_ascii_of_string fold_left String.length].
    rewrite (Hs c) by now left.
    rewrite IH by (intros c' Hc'; apply Hs; now right).
    do 3 f_equal. lia.
Qed.

(** [int] of a run of ASCII digits: its decimal value, unless there are
    more digits than [int_max_str_digits]. *)
Lemma py_int_digits (d : string) :
  d <> EmptyString -> all_digits d ->
  py_int d =
    if (String.length d <=? int_max_str_digits)%nat
    then Ok (int_of_digits d) else Raise ValueError.
Proof.
  intros Hne Hd. destruct d as [|c s]; [contradiction|].
  assert (Hc : is_digit c = true) by (apply Hd; now left).
  assert (Hsp : is_space c = false).
  { destruct c as [[] [] [] [] [] [] [] []]; try reflexivity; discriminate. }
  assert (Hu : int_unsigned (String c s) =
               if (String.length (String c s) <=? int_max_str_digits)%nat
               then Some (int_of_digits (String c s)) else None).
  { unfold int_unsigned. rewrite Hc, int_body_digits.
    - cbn [String.length Nat.add]. now destruct (_ <=? _)%nat.
    - intros c' Hc'. apply Hd. now right. }
  unfold py_int. rewrite to_ascii_digits by assumption. cbn [mbind option_bind].
  unfold int_of_ascii. cbn [lstrip]. rewrite Hsp.
  assert (Hi : match String c s with
               | String "+" s' => int_unsigned s'
               | String "-" s' => Z.opp <$> int_unsigned s'
               | s' => int_unsigned s'
               end = int_unsigned (String c s)).
  { destruct c as [[] [] [] [] [] [] [] []]; try discriminate Hc; reflexivity. }
  rewrite Hi, Hu. now destruct (_ <=? _)%nat.
Qed.

Lemma numberre_group_digits (t g : string) (len : nat) :
  numberre t = Some (g, len) -> g <> EmptyString /\ all_digits g.
Proof.
  unfold numberre. pose proof (span_digits_all t) as Hd.
  destruct (span_digits t) as [[|c d] r]; [discriminate|].
  intros [= <- _]. split; [discriminate | exact Hd].
Qed.

(** [int] of the first number of a cell. *)
Lemma py_int_first_number (cell m : string) (ms : list string) :
  findall numberre cell = m :: ms ->
  py_int m =
    if (String.length m <=? int_max_str_digits)%nat
    then Ok (int_of_digits m) else Raise ValueError.
Proof.
  intros H. assert (Hin : m ∈ findall numberre cell) by (rewrite H; left).
  apply findall_from_groups in Hin as (t & len & Ht).
  apply numberre_group_digits in Ht as [Hne Hd]. now apply py_int_digits.
Qed.

Lemma forallb_length (l : list string) :
  forallb (fun g => (String.length g <=? int_max_str_digits)%nat) l = true <->
  Forall (fun g => (String.length g <= int_max_str_digits)%nat) l.
Proof.
  induction l as [|g l IH]; cbn [forallb].
  - split; [constructor | reflexivity].
  - rewrite andb_true_iff, Forall_cons, IH, Nat.leb_le. reflexivity.
Qed.

(** [map(int, ...)] over the numbers of a text. *)
Lemma map_int_numbers (s : string) :
  map_int (findall numberre s) =
    if forallb (fun g => (String.length g <=? int_max_str_digits)%nat)
               (findall numberre s)
    then Ok (map int_of_digits (findall numberre s)) else Raise ValueError.
Proof.
  assert (H : forall g, g ∈ findall numberre s -> g <> EmptyString /\ all_digits g).
  { intros g Hg. apply findall_from_groups in Hg as (t & len & Ht).
    now apply numberre_group_digits in Ht. }
  induction (findall numberre s) as [|g l IH]; [reflexivity|].
  cbn [map_int forallb map].
  rewrite py_int_digits by (apply H; left).
  destruct (_ <=? _)%nat; [|reflexivity].
  rewrite IH by (intros g' Hg'; apply H; now right).
  now destruct (forallb _ l).
Qed.

(** ** The monad *)

Lemma bind_ok {A B} (c : M A) (k : A -> M B) st st' b :
  bind c k st = (st', Ok b) ->
  exists a st1, c st = (st1, Ok a) /\ k a st1 = (st', Ok b).
Proof.
  unfold bind. destruct (c st) as [st1 [a|e]]; [eauto | discriminate].
Qed.

Lemma bind_step {A B} (c : M A) (k : A -> M B) st st1 a :
  c st = (st1, Ok a) -> bind c k st = k a st1.
Proof. unfold bind. now intros ->. Qed.

Lemma bind_raise {A B} (c : M A) (k : A -> M B) st st1 e :
  c st = (st1, Raise e) -> bind c k st = (st1, Raise e).
Proof. unfold bind. now intros ->. Qed.

Lemma getitem_some (d : gmap string string) key v st :
  d !! key = Some v -> getitem d key st = (st, Ok v).
Proof. unfold getitem. now intros ->. Qed.

Lemma getitem_none (d : gmap string string) key st :
  d !! key = None -> getitem d key st = (st, Raise (KeyError key)).
Proof. unfold getitem. now intros ->. Qed.

Lemma getitem_ok (d : gmap string string) key st st' v :
  getitem d key st = (st', Ok v) -> d !! key = Some v /\ st' = st.
Proof.
  unfold getitem. destruct (d !! key); [|discriminate]. now intros [= <- <-].
Qed.

Lemma first_ok {A} (l : list A) st st' x :
  first l st = (st', Ok x) -> (exists l', l = x :: l') /\ st' = st.
Proof. destruct l; [discriminate|]. intros [= <- <-]. eauto. Qed.

Lemma lift_ok {A} (r : result A) st st' x :
  lift r st = (st', Ok x) -> r = Ok x /\ st' = st.
Proof. unfold lift. now intros [= <- <-]. Qed.

Lemma ret_ok {A} (a : A) st st' x :
  ret a st = (st', Ok x) -> x = a /\ st' = st.
Proof. now intros [= <- <-]. Qed.

Lemma assert_ok b site msg st st' u :
  assert b site msg st = (st', Ok u) -> b = true /\ st' = st.
Proof. destruct b; [|discriminate]. now intros [= <-]. Qed.

Lemma fold_max_is_max (l : list Z) (x : Z) :
  is_max (fold_left Z.max l x) (x :: l).
Proof.
  revert x. induction l as [|y l IH]; intros x; cbn [fold_left].
  - split; [left | repeat constructor; lia].
  - destruct (IH (Z.max x y)) as [Hin Hall]. split.
    + apply elem_of_cons in Hin as [->|Hin].
      * destruct (Z.max_spec x y) as [[_ ->]|[_ ->]]; [right; left | left].
      * right. now right.
    + apply Forall_cons in Hall as [H1 H2].
      repeat constructor; [lia | lia | assumption].
Qed.

Lemma py_max_ok (l : list Z) st st' m :
  py_max l st = (st', Ok m) -> is_max m l /\ st' = st.
Proof.
  destruct l as [|x l]; [discriminate|]. intros [= <- <-].
  split; [apply fold_max_is_max | reflexivity].
Qed.

Lemma family_cases (pc : string) (st : state) :
  (exists tag, (pc, tag) ∈ known_families /\ family pc st = (st, Ok tag)) \/
  ((forall tag, (pc, tag) ∉ known_families) /\
   family pc st = (st, Raise (AssertionError UnrecognizedFamily (Some pc)))).
Proof.
  unfold family, known_families.
  repeat match goal with
         | |- context [String.eqb pc ?s] =>
             destruct (String.eqb_spec pc s) as [->|?];
             [left; eexists; split; [|reflexivity];
              repeat first [apply list_elem_of_here | apply list_elem_of_further]|]
         end.
  right. split.
  - intros tag Hin.
    repeat (apply elem_of_cons in Hin as [[= ? ?]|Hin]; [congruence|]).
    now apply elem_of_nil in Hin.
  - rewrite String.eqb_refl. reflexivity.
Qed.

Lemma family_ok (pc : string) st st' tag :
  family pc st = (st', Ok tag) -> (pc, tag) ∈ known_families /\ st' = st.
Proof.
  destruct (family_cases pc st) as [(tag' & Hin & ->)|[_ ->]]; [|discriminate].
  now intros [= <- <-].
Qed.

Lemma price_of_cell_total (cell : string) (st : state) :
  exists m ms, findall pricere (cell +:+ "$10000000.00") = m :: ms /\
               price_of_cell cell st = (st, Ok (float_of_decimal m)).
Proof.
  destruct (findall_pricere_sentinel cell) as (m & ms & E).
  exists m, ms. split; [assumption|].
  unfold price_of_cell. now rewrite E.
Qed.

Lemma price_of_cell_ok (cell : string) st st' p :
  price_of_cell cell st = (st', Ok p) ->
  (exists m ms, findall pricere (cell +:+ "$10000000.00") = m :: ms /\
                p = float_of_decimal m) /\ st' = st.
Proof.
  destruct (price_of_cell_total cell st) as (m & ms & E & ->).
  intros [= <- <-]. eauto.
Qed.

(** Inversion of a successful run of a chain of [bind]s. *)
Ltac inv_ok :=
  repeat match goal with
    | H : bind _ _ _ = (_, Ok _) |- _ =>
        let a := fresh "a" in let st := fresh "st" in let E := fresh "E" in
        apply bind_ok in H as (a & st & E & H)
    | H : getitem _ _ _ = (_, Ok _) |- _ => apply getitem_ok in H as [H ->]
    | H : price_of_cell _ _ = (_, Ok _) |- _ =>
        apply price_of_cell_ok in H as [(? & ? & H & ->) ->]
    | H : first _ _ = (_, Ok _) |- _ => apply first_ok in H as [[? H] ->]
    | H : lift _ _ = (_, Ok _) |- _ => apply lift_ok in H as [H ->]
    | H : ret _ _ = (_, Ok _) |- _ => apply ret_ok in H as [-> ->]
    | H : assert _ _ _ _ = (_, Ok _) |- _ => apply assert_ok in H as [H ->]
    | H : family _ _ = (_, Ok _) |- _ => apply family_ok in H as [H ->]
    | H : py_max _ _ = (_, Ok _) |- _ => apply py_max_ok in H as [H ->]
    | H : in_observed _ _ = (_, Ok _) |- _ => injection H as <- <-
    | H : observed_update _ _ = (_, Ok _) |- _ => injection H as <-
    | H : print _ _ = (_, Ok _) |- _ => injection H as <-
    end.

(** ** One row *)

(** A row that ends normally was either dropped by the skip test, leaving
    the state as it was, or it printed one block and recorded its name. *)
Lemma process_row_ok (data : gmap string string) (st st' : state) :
  process_row data st = (st', Ok tt) ->
  (skipped data /\ st' = st) \/
  (exists a, row_values data a /\ (f_name a ∉ observed st) /\
             st' = State ({[f_name a]} ∪ observed st)
                         (stdout st ++ [formstring_format a])).
Proof.
  unfold process_row. intros H.
  apply bind_ok in H as (cell & st1 & Hcell & H). apply getitem_ok in Hcell as [Hcell ->].
  apply bind_ok in H as (price & st1 & Hprice & H).
  apply price_of_cell_ok in Hprice as [(m & ms & Hm & ->) ->].
  apply bind_ok in H as (sockets & st1 & Hsock & H). apply getitem_ok in Hsock as [Hsock ->].
  destruct (String.eqb_spec sockets EmptyString) as [->|Hne].
  - left. apply ret_ok in H as [_ ->]. repeat split; eauto.
  - right. inv_ok.
    match goal with H : scale_ok _ = true |- _ =>
      apply bool_decide_eq_true in H end.
    match goal with H : negb (bool_decide _) = true |- _ =>
      apply negb_true_iff, bool_decide_eq_false in H end.
    match goal with F : findall numberre _ = ?m :: _, H : py_int ?m = Ok _ |- _ =>
      rewrite (py_int_first_number _ _ _ F) in H;
      destruct (Nat.leb_spec (String.length m) int_max_str_digits) as [Hlen|];
        [|discriminate H];
      injection H as <- end.
    match goal with H : map_int (findall numberre ?s) = Ok _ |- _ =>
      rewrite map_int_numbers in H;
      destruct (forallb _ (findall numberre s)) eqn:Hall; [|discriminate H];
      injection H as <-; apply forallb_length in Hall end.
    eexists (Fields _ _ _ _ _ _ _ _ _ _).
    split; [|split; [eassumption | reflexivity]].
    constructor; cbn; eauto 10.
Qed.

(** Only [print] writes to the output, and it is the last step of a row. *)

Lemma quiet_bind {A B} (c : M A) (k : A -> M B) :
  quiet c -> (forall a, quiet (k a)) -> quiet (bind c k).
Proof.
  intros Hc Hk st. unfold bind. specialize (Hc st).
  destruct (c st) as [st1 [a|e]]; [|exact Hc].
  rewrite Hk. exact Hc.
Qed.

Lemma quiet_on_raise_bind {A B} (c : M A) (k : A -> M B) :
  quiet c -> (forall a, quiet_on_raise (k a)) -> quiet_on_raise (bind c k).
Proof.
  intros Hc Hk st st' e. unfold bind. specialize (Hc st).
  destruct (c st) as [st1 [a|e1]].
  - intros H. rewrite (Hk _ _ _ _ H). exact Hc.
  - now intros [= <- _].
Qed.

Lemma quiet_getitem d key : quiet (getitem d key).
Proof. intros st. unfold getitem. now destruct (d !! key). Qed.

Lemma quiet_first {A} (l : list A) : quiet (first l).
Proof. intros st. now destruct l. Qed.

Lemma quiet_lift {A} (r : result A) : quiet (lift r).
Proof. now intros st. Qed.

Lemma quiet_ret {A} (a : A) : quiet (ret a).
Proof. now intros st. Qed.

Lemma quiet_assert b site msg : quiet (assert b site msg).
Proof. intros st. now destruct b. Qed.

Lemma quiet_py_max l : quiet (py_max l).
Proof. intros st. now destruct l. Qed.

Lemma quiet_in_observed name : quiet (in_observed name).
Proof. now intros st. Qed.

Lemma quiet_observed_update name : quiet (observed_update name).
Proof. now intros st. Qed.

Lemma quiet_price_of_cell cell : quiet (price_of_cell cell).
Proof.
  intros st. destruct (price_of_cell_total cell st) as (m & ms & _ & ->).
  reflexivity.
Qed.

Lemma quiet_family pc : quiet (family pc).
Proof.
  intros st. now destruct (family_cases pc st) as [(tag & _ & ->)|[_ ->]].
Qed.

Lemma quiet_quiet_on_raise {A} (c : M A) : quiet c -> quiet_on_raise c.
Proof. intros Hc st st' e H. specialize (Hc st). now rewrite H in Hc. Qed.

Create HintDb quiet.
#[local] Hint Resolve quiet_getitem quiet_first quiet_lift quiet_ret quiet_assert
  quiet_py_max quiet_in_observed quiet_observed_update quiet_price_of_cell
  quiet_family : quiet.

Lemma process_row_quiet_on_raise (data : gmap string string) :
  quiet_on_raise (process_row data).
Proof.
  unfold process_row.
  do 3 (apply quiet_on_raise_bind; [auto with quiet | intros ?]).
  destruct (String.eqb _ _); [apply quiet_quiet_on_raise; auto with quiet|].
  repeat (apply quiet_on_raise_bind; [auto with quiet | intros ?]).
  intros st st' e. discriminate.
Qed.

(** A row can only add its own name to [observed]. *)
Lemma process_row_observed (data : gmap string string) (st st' : state) (u : unit) :
  process_row data st = (st', Ok u) ->
  observed st' = observed st ∪ row_name data.
Proof.
  destruct u. intros H. apply process_row_ok in H as [[[_ Hs] ->]|(a & Hv & Hnew & ->)].
  - unfold row_name. rewrite Hs. cbn. destruct (data !! "Name"); set_solver.
  - destruct Hv as [Hname _ (s & pc & tag & Hs & Hne & _) _ _ _ _ _ _ _].
    unfold row_name. rewrite Hs, Hname.
    destruct (String.eqb_spec s EmptyString); [contradiction|]. cbn. set_solver.
Qed.

(** ** The loop *)

Lemma for_each_app {A} (body : A -> M unit) (l1 l2 : list A) (st : state) :
  for_each body (l1 ++ l2) st = (for_each body l1 ;; for_each body l2) st.
Proof.
  revert st. induction l1 as [|x l1 IH]; intros st; cbn [for_each app].
  - reflexivity.
  - unfold bind in *. destruct (body x st) as [st1 [[]|e]]; [apply IH | reflexivity].
Qed.

Lemma for_each_cons_ok {A} (body : A -> M unit) x l st st' :
  for_each body (x :: l) st = (st', Ok tt) ->
  exists st1, body x st = (st1, Ok tt) /\ for_each body l st1 = (st', Ok tt).
Proof.
  cbn [for_each]. intros H. apply bind_ok in H as ([] & st1 & H1 & H2). eauto.
Qed.

Lemma for_each_app_ok {A} (body : A -> M unit) l1 l2 st st' :
  for_each body (l1 ++ l2) st = (st', Ok tt) ->
  exists st1, for_each body l1 st = (st1, Ok tt) /\ for_each body l2 st1 = (st', Ok tt).
Proof.
  rewrite for_each_app. intros H. apply bind_ok in H as ([] & st1 & H1 & H2). eauto.
Qed.

Lemma for_each_observed (rows : list (gmap string string)) (st st' : state) :
  for_each process_row rows st = (st', Ok tt) ->
  observed st' = observed st ∪ ⋃ (row_name <$> rows).
Proof.
  revert st. induction rows as [|d rows IH]; intros st H.
  - injection H as <-. cbn. set_solver.
  - apply for_each_cons_ok in H as (st1 & H1 & H2).
    apply process_row_observed in H1. apply IH in H2.
    rewrite H2, H1. cbn. set_solver.
Qed.

(** Names are only ever added to [observed]. *)

Lemma growing_bind {A B} (c : M A) (k : A -> M B) :
  growing c -> (forall a, growing (k a)) -> growing (bind c k).
Proof.
  intros Hc Hk st. unfold bind. specialize (Hc st).
  destruct (c st) as [st1 [a|e]]; [|exact Hc].
  specialize (Hk a st1). set_solver.
Qed.

Lemma growing_quiet_state {A} (c : M A) :
  (forall st, (c st).1 = st) -> growing c.
Proof. intros Hc st. now rewrite Hc. Qed.

Lemma growing_getitem d key : growing (getitem d key).
Proof. apply growing_quiet_state. intros st. unfold getitem. now destruct (d !! key). Qed.

Lemma growing_first {A} (l : list A) : growing (first l).
Proof. apply growing_quiet_state. intros st. now destruct l. Qed.

Lemma growing_lift {A} (r : result A) : growing (lift r).
Proof. now apply growing_quiet_state. Qed.

Lemma growing_ret {A} (a : A) : growing (ret a).
Proof. now apply growing_quiet_state. Qed.

Lemma growing_assert b site msg : growing (assert b site msg).
Proof. apply growing_quiet_state. intros st. now destruct b. Qed.

Lemma growing_py_max l : growing (py_max l).
Proof. apply growing_quiet_state. intros st. now destruct l. Qed.

Lemma growing_in_observed name : growing (in_observed name).
Proof. now apply growing_quiet_state. Qed.

Lemma growing_observed_update name : growing (observed_update name).
Proof. intros st. cbn. set_solver. Qed.

Lemma growing_print s : growing (print s).
Proof. intros st. cbn. set_solver. Qed.

Lemma growing_price_of_cell cell : growing (price_of_cell cell).
Proof.
  apply growing_quiet_state. intros st.
  now destruct (price_of_cell_total cell st) as (m & ms & _ & ->).
Qed.

Lemma growing_family pc : growing (family pc).
Proof.
  apply growing_quiet_state. intros st.
  now destruct (family_cases pc st) as [(tag & _ & ->)|[_ ->]].
Qed.

Create HintDb growing.
#[local] Hint Resolve growing_getitem growing_first growing_lift growing_ret
  growing_assert growing_py_max growing_in_observed growing_observed_update
  growing_print growing_price_of_cell growing_family : growing.

Lemma process_row_growing (data : gmap string string) : growing (process_row data).
Proof.
  unfold process_row.
  do 3 (apply growing_bind; [auto with growing | intros ?]).
  destruct (String.eqb _ _); [auto with growing|].
  repeat (apply growing_bind; [auto with growing | intros ?]).
  auto with growing.
Qed.

(** What the loop has printed, however it ended: blocks of rows of the
    list, under names that were new and are pairwise distinct. *)
Lemma for_each_printed (rows : list (gmap string string)) (st st' : state) r :
  for_each process_row rows st = (st', r) ->
  exists blocks : list fields,
    stdout st' = stdout st ++ (formstring_format <$> blocks) /\
    NoDup (f_name <$> blocks) /\
    Forall (fun a => (f_name a ∉ observed st) /\ f_name a ∈ observed st' /\
                     exists d, d ∈ rows /\ row_values d a) blocks /\
    observed st ⊆ observed st'.
Proof.
  revert st. induction rows as [|d rows IH]; intros st H.
  - injection H as <- _. exists []. cbn. rewrite app_nil_r.
    repeat split; [constructor | constructor | set_solver].
  - cbn [for_each] in H. unfold bind in H.
    destruct (process_row d st) as [st1 [[]|e]] eqn:Hd.
    + apply IH in H as (blocks & Hout & Hnd & Hall & Hsub).
      apply process_row_ok in Hd as [[_ ->]|(a & Hv & Hnew & ->)].
      * exists blocks. repeat split; try assumption.
        eapply Forall_impl; [exact Hall|]. cbn.
        intros a (? & ? & d' & ? & ?). repeat split; try assumption.
        exists d'. split; [now right | assumption].
      * cbn in Hout, Hall, Hsub. exists (a :: blocks). repeat split.
        -- rewrite Hout. cbn. now rewrite <- app_assoc.
        -- cbn. constructor; [|assumption].
           intros Hin. apply list_elem_of_fmap in Hin as (a' & Heq & Hin).
           rewrite Forall_forall in Hall. destruct (Hall _ Hin) as (Hn & _).
           rewrite <- Heq in Hn. set_solver.
        -- constructor.
           ++ repeat split; [assumption | set_solver |].
              exists d. split; [left | assumption].
           ++ eapply Forall_impl; [exact Hall|]. cbn.
              intros a' (? & ? & d' & ? & ?). repeat split; [set_solver | assumption |].
              exists d'. split; [now right | assumption].
        -- set_solver.
    + injection H as <- _. exists []. cbn. rewrite app_nil_r.
      repeat split; [| constructor | constructor |].
      * exact (process_row_quiet_on_raise d _ _ _ Hd).
      * pose proof (process_row_growing d st) as Hg. now rewrite Hd in Hg.
Qed.

(** ** Files and the whole run *)

Lemma for_each_map {A B} (f : A -> B) (body : B -> M unit) (l : list A) :
  for_each (fun x => body (f x)) l = for_each body (map f l).
Proof. induction l as [|x l IH]; cbn [for_each map]; [reflexivity | now rewrite IH]. Qed.

(** [process] either fails before its loop, with the state untouched, or
    is the loop over the rows of the file. *)
Lemma process_cases (fs : gmap string string) (fn : string) (st : state) :
  (rows_of fs fn = [] /\ exists e, process fs fn st = (st, Raise e)) \/
  process fs fn st = for_each process_row (rows_of fs fn) st.
Proof.
  unfold process, rows_of, file_rows, read_file, bind.
  destruct (fs !! fn) as [text|]; [|left; eauto].
  cbn. destruct (map (split ";") (splitlines text)) as [|h rs]; [left; eauto|].
  right. cbn. now rewrite for_each_map.
Qed.

Lemma main_state (fs : gmap string string) (st : state) :
  exists rows rest, run_rows fs = rows ++ rest /\
    (main fs st).1 = (for_each process_row rows st).1.
Proof.
  unfold main, run_rows, bind.
  destruct (process_cases fs "xeon_w.csv" st) as [[_ (e & ->)]| ->].
  - now exists [], (rows_of fs "xeon_w.csv" ++ rows_of fs "xeon_scalable_gen2.csv").
  - destruct (for_each process_row (rows_of fs "xeon_w.csv") st) as [st1 [[]|e]] eqn:E1.
    + destruct (process_cases fs "xeon_scalable_gen2.csv" st1) as [[_ (e & ->)]| ->].
      * exists (rows_of fs "xeon_w.csv"), (rows_of fs "xeon_scalable_gen2.csv").
        now rewrite E1.
      * eexists _, []. rewrite app_nil_r. split; [reflexivity|].
        rewrite for_each_app. unfold bind. now rewrite E1.
    + exists (rows_of fs "xeon_w.csv"), (rows_of fs "xeon_scalable_gen2.csv").
      now rewrite E1.
Qed.

Lemma main_ok (fs : gmap string string) (st st' : state) :
  main fs st = (st', Ok tt) ->
  for_each process_row (run_rows fs) st = (st', Ok tt).
Proof.
  unfold main, run_rows. intros H. apply bind_ok in H as ([] & st1 & H1 & H2).
  rewrite for_each_app.
  destruct (process_cases fs "xeon_w.csv" st) as [[_ (e & E)]|E];
    rewrite E in H1; [discriminate|].
  destruct (process_cases fs "xeon_scalable_gen2.csv" st1) as [[_ (e & E')]|E'];
    rewrite E' in H2; [discriminate|].
  now rewrite (bind_step _ _ _ _ _ H1).
Qed.

(** ** Rows that raise *)

(** The steps every row takes up to the name check. *)
Ltac row_step :=
  first [ erewrite bind_step by (apply getitem_some; eassumption)
        | erewrite bind_step by eassumption ].

Lemma missing_price_raises (data : gmap string string) (st : state) :
  data !! "Recommended Customer Price" = None ->
  process_row data st = (st, Raise (KeyError "Recommended Customer Price")).
Proof.
  intros H. unfold process_row.
  erewrite bind_raise; [reflexivity|]. now apply getitem_none.
Qed.

Lemma missing_sockets_raises (data : gmap string string) (st : state) :
  is_Some (data !! "Recommended Customer Price") ->
  data !! "Sockets Supported" = None ->
  process_row data st = (st, Raise (KeyError "Sockets Supported")).
Proof.
  intros [cell Hc] Hs. unfold process_row.
  destruct (price_of_cell_total cell st) as (m & ms & _ & Hp).
  do 2 row_step.
  erewrite bind_raise; [reflexivity|]. now apply getitem_none.
Qed.

Lemma skipped_row (data : gmap string string) (st : state) :
  skipped data -> process_row data st = (st, Ok tt).
Proof.
  intros [[cell Hc] Hs]. unfold process_row.
  destruct (price_of_cell_total cell st) as (m & ms & _ & Hp).
  do 3 row_step. reflexivity.
Qed.

Lemma duplicate_name_raises (data : gmap string string) (st : state) name :
  is_Some (data !! "Recommended Customer Price") ->
  non_skipped data ->
  data !! "Name" = Some name ->
  name ∈ observed st ->
  process_row data st = (st, Raise (AssertionError DuplicateName None)).
Proof.
  intros [cell Hc] (s & Hs & Hne) Hn Hin. unfold process_row.
  destruct (price_of_cell_total cell st) as (m & ms & _ & Hp).
  do 3 row_step. apply String.eqb_neq in Hne. rewrite Hne.
  row_step. unfold bind at 1, in_observed.
  now rewrite bool_decide_eq_true_2.
Qed.

Lemma unknown_family_raises (data : gmap string string) (st : state) name pc :
  is_Some (data !! "Recommended Customer Price") ->
  non_skipped data ->
  data !! "Name" = Some name ->
  name ∉ observed st ->
  data !! "Product Collection" = Some pc ->
  (forall tag, (pc, tag) ∉ known_families) ->
  process_row data st =
    (named name st, Raise (AssertionError UnrecognizedFamily (Some pc))).
Proof.
  intros [cell Hc] (s & Hs & Hne) Hn Hnew Hpc Hunk. unfold process_row.
  destruct (price_of_cell_total cell st) as (m & ms & _ & Hp).
  do 3 row_step. apply String.eqb_neq in Hne. rewrite Hne.
  row_step. unfold bind at 1, in_observed. rewrite bool_decide_eq_false_2 by assumption.
  unfold bind at 1. cbn [negb assert ret]. unfold bind at 1, observed_update.
  fold (named name st). row_step.
  erewrite bind_raise; [reflexivity|].
  destruct (family_cases pc (named name st)) as [(tag & Hin & _)|[_ ->]]; [|reflexivity].
  now destruct (Hunk tag).
Qed.

Lemma bad_scalability_raises (data : gmap string string) (st : state)
      name pc tag cell m ms :
  is_Some (data !! "Recommended Customer Price") ->
  non_skipped data ->
  data !! "Name" = Some name ->
  name ∉ observed st ->
  data !! "Product Collection" = Some pc ->
  (pc, tag) ∈ known_families ->
  data !! "Scalability" = Some cell ->
  findall numberre cell = m :: ms ->
  (String.length m <= int_max_str_digits)%nat ->
  int_of_digits m ∉ [1; 2; 4; 8] ->
  process_row data st =
    (named name st, Raise (AssertionError InvalidScalability None)).
Proof.
  intros [pcell Hc] (s & Hs & Hne) Hn Hnew Hpc Hfam Hcell Hm Hlen Hbad.
  unfold process_row.
  destruct (price_of_cell_total pcell st) as (m' & ms' & _ & Hp).
  do 3 row_step. apply String.eqb_neq in Hne. rewrite Hne.
  row_step. unfold bind at 1, in_observed. rewrite bool_decide_eq_false_2 by assumption.
  unfold bind at 1. cbn [negb assert ret]. unfold bind at 1, observed_update.
  fold (named name st). row_step.
  destruct (family_cases pc (named name st)) as [(tag' & _ & Hf)|[Hunk _]];
    [|now destruct (Hunk tag)].
  do 2 row_step. rewrite Hm. unfold bind at 1, first, ret.
  unfold bind at 1, lift. rewrite (py_int_first_number _ _ _ Hm).
  apply Nat.leb_le in Hlen. rewrite Hlen.
  erewrite bind_raise; [reflexivity|].
  unfold scale_ok. now rewrite bool_decide_eq_false_2.
Qed.

(** A row that raises has printed nothing; a row past the skip test that
    does not raise has printed its block. *)
Lemma process_row_outcome (data : gmap string string) (st : state) :
  (exists st' e, process_row data st = (st', Raise e) /\ stdout st' = stdout st) \/
  (skipped data /\ process_row data st = (st, Ok tt)) \/
  (exists a, row_values data a /\ (f_name a ∉ observed st) /\
     process_row data st =
       (State ({[f_name a]} ∪ observed st) (stdout st ++ [formstring_format a]), Ok tt)).
Proof.
  destruct (process_row data st) as [st' [[]|e]] eqn:E.
  - right. apply process_row_ok in E as [[Hs ->]|(a & Hv & Hnew & ->)]; eauto.
  - left. exists st', e. split; [reflexivity|].
    exact (process_row_quiet_on_raise data _ _ _ E).
Qed.

(** ** First matches *)

Lemma findall_first_match (r : regex) (s m : string) (ms : list string) :
  findall r s = m :: ms -> first_match r s m.
Proof.
  induction s as [|c s IH]; [discriminate|].
  rewrite findall_cons. destruct (r (String c s)) as [[g len]|] eqn:E.
  - intros [= -> _]. exists EmptyString, (String c s), len.
    repeat split; [assumption|].
    intros p1 p2 Hp. destruct p1; [|discriminate].
    rewrite append_nil_l in Hp. now intros [].
  - intros H. destruct (IH H) as (pre & t & len & -> & Ht & Hmin).
    exists (String c pre), t, len. repeat split; [assumption|].
    intros [|c1 p1] p2 Hp Hne.
    + rewrite append_nil_l in Hp. subst p2. exact E.
    + rewrite append_cons in Hp. injection Hp as _ Hp. eauto.
Qed.

Lemma span_digits_split (s : string) :
  s = (span_digits s).1 +:+ (span_digits s).2.
Proof.
  induction s as [|c s IH]; [reflexivity|]. cbn [span_digits].
  destruct (is_digit c); [|reflexivity].
  destruct (span_digits s) as [d r]. cbn in *. now rewrite append_cons, <- IH.
Qed.

Lemma match_decimal_currency (s g rest : string) :
  match_decimal s = Some (g, rest) -> currency g /\ s = g +:+ rest.
Proof.
  unfold match_decimal.
  pose proof (span_digits_all s) as Hd. pose proof (span_digits_split s) as Hs.
  destruct (span_digits s) as [d r]. cbn in Hd, Hs.
  destruct d as [|d0 d]; [discriminate|].
  destruct r as [|r0 r]; [discriminate|].
  destruct (Ascii.eqb_spec r0 "."%char) as [->|Hne].
  - destruct r as [|a [|b r]]; try discriminate.
    destruct (is_digit a) eqn:Ha; [|discriminate].
    destruct (is_digit b) eqn:Hb; [|discriminate].
    intros [= <- <-]. split.
    + exists (String d0 d), a, b. repeat split; try assumption. discriminate.
    + rewrite Hs. now rewrite append_assoc.
  - destruct r0 as [[] [] [] [] [] [] [] []]; try discriminate; now destruct Hne.
Qed.

Lemma pricere_currency (t g : string) (len : nat) :
  pricere t = Some (g, len) ->
  currency g /\ exists rest, t = String "$" (g +:+ rest).
Proof.
  unfold pricere. destruct t as [|c t]; [discriminate|].
  destruct c as [[] [] [] [] [] [] [] []]; try discriminate.
  destruct (match_decimal t) as [[g' rest]|] eqn:E; [|discriminate].
  intros [= <- _]. apply match_decimal_currency in E as [Hc ->]. eauto.
Qed.

(** The leftmost run of digits of a text. *)
Lemma numberre_first (cell m : string) (ms : list string) :
  findall numberre cell = m :: ms ->
  exists pre rest,
    cell = pre +:+ m +:+ rest /\
    (forall c, In c (list_ascii_of_string pre) -> is_digit c = false) /\
    m <> EmptyString /\ all_digits m /\
    (forall c rest', rest = String c rest' -> is_digit c = false).
Proof.
  intros H. apply findall_first_match in H as (pre & t & len & -> & Ht & Hmin).
  unfold numberre in Ht.
  pose proof (span_digits_all t) as Hd. pose proof (span_digits_split t) as Hs.
  destruct (span_digits t) as [d r] eqn:Hsp. cbn in Hd, Hs.
  destruct d as [|d0 d]; [discriminate|]. injection Ht as <- _.
  exists pre, r. repeat split; try assumption; try discriminate.
  - now rewrite Hs.
  - clear Hd Hs. induction pre as [|c pre IH]; [now intros c []|].
    intros c' [<-|Hin].
    + specialize (Hmin EmptyString (String c pre) eq_refl ltac:(discriminate)).
      unfold numberre in Hmin. rewrite append_cons in Hmin. cbn [span_digits] in Hmin.
      destruct (is_digit c); [|reflexivity].
      now destruct (span_digits (pre +:+ t)).
    + apply IH; [|assumption]. intros p1 p2 -> Hne.
      now apply (Hmin (String c p1) p2).
  - intros c rest' ->. destruct (is_digit c) eqn:Hc; [|reflexivity].
    exfalso. clear -Hsp Hc. revert d0 d Hsp.
    induction t as [|a t IH]; intros d0 d; cbn [span_digits]; [discriminate|].
    destruct (is_digit a) eqn:Ha.
    * destruct (span_digits t) as [d' r'] eqn:E. intros [= -> -> ->].
      destruct d as [|d1 d].
      -- destruct t as [|b t]; [discriminate|]. cbn [span_digits] in E.
         destruct (is_digit b) eqn:Hb.
         ++ now destruct (span_digits t).
         ++ injection E as <- <-. congruence.
      -- eauto.
    * discriminate.
Qed.

(** * The claims *)

(** ** C1: the Gold 6248 scenario *)

(** C1, as stated, fails.  The price cell [$3,043.00] has a comma after
    the first digit, so [pricere] does not match inside it and the price
    comes from the appended suffix: the printed block is not the expected
    one with price 3043.00. *)
Lemma scenario_price_is_not_3043 :
  stdout (process (two_sheets gold_6248_sheet EmptyString) "xeon_w.csv" initial).1
  <> [formstring_format gold_6248_expected].
Proof. vm_compute. intros H. discriminate H. Qed.

(** C1, amended.  For the scenario sheet [process] prints exactly one
    block, with name Gold 6248, clock_rate 2.50, cores 20, threads 40,
    avx512_fma_units Some(1), typ XeonScalable_1S, scalability 1,
    mem_support DDR4_2933, mem_channels 6, and price 10000000.00: the only
    match of the price pattern in [$3,043.00$10000000.00] is the suffix. *)
Theorem scenario_block (fs : gmap string string) (fn : string) :
  fs !! fn = Some gold_6248_sheet ->
  process fs fn initial =
    (State {["Gold 6248"]} [formstring_format gold_6248_printed], Ok tt) /\
  findall pricere ("$3,043.00" +:+ "$10000000.00") = ["10000000.00"] /\
  format_2f (f_price gold_6248_printed) = "10000000.00".
Proof.
  intros H. split; [|split; reflexivity].
  unfold process, read_file. rewrite H. vm_compute. reflexivity.
Qed.

Lemma scenario_block_witness :
  process (two_sheets gold_6248_sheet EmptyString) "xeon_w.csv" initial =
    (State {["Gold 6248"]} [formstring_format gold_6248_printed], Ok tt) /\
  findall pricere ("$3,043.00" +:+ "$10000000.00") = ["10000000.00"] /\
  format_2f (f_price gold_6248_printed) = "10000000.00".
Proof. apply scenario_block. reflexivity. Defined.

(** ** C6: price extraction *)

(** C6.  Price extraction never fails: whatever the cell, the text with
    the suffix appended has a leftmost match of the currency pattern (a
    dollar sign, digits, a point, two digits), and the price is its number.
    An empty cell gives the suffix value 10000000.00, and a cell whose first
    currency-formatted number is [$1999.00] gives 1999.00. *)
Theorem price_extraction_total :
  (forall cell st, exists m,
      first_match pricere (cell +:+ "$10000000.00") m /\ currency m /\
      price_of_cell cell st = (st, Ok (float_of_decimal m))) /\
  (forall st, price_of_cell EmptyString st = (st, Ok (float_of_decimal "10000000.00"))) /\
  format_2f (float_of_decimal "10000000.00") = "10000000.00" /\
  (forall pre post st,
      findall pricere pre = [] ->
      price_of_cell (pre +:+ "$1999.00" +:+ post) st =
        (st, Ok (float_of_decimal "1999.00"))) /\
  format_2f (float_of_decimal "1999.00") = "1999.00".
Proof.
  repeat split; try reflexivity.
  - intros cell st. destruct (price_of_cell_total cell st) as (m & ms & E & Hp).
    exists m. pose proof (findall_first_match _ _ _ _ E) as Hfm.
    repeat split; try assumption.
    destruct Hfm as (pre & t & len & _ & Ht & _).
    now apply pricere_currency in Ht as [Hc _].
  - intros pre post st Hpre. unfold price_of_cell.
    rewrite !append_assoc.
    change ("$1999.00" +:+ post +:+ "$10000000.00")
      with (String "$" ("1999.00" +:+ post +:+ "$10000000.00")).
    rewrite findall_pricere_skip by assumption.
    rewrite findall_cons.
    change (pricere (String "$" ("1999.00" +:+ post +:+ "$10000000.00")))
      with (Some ("1999.00", 8%nat)).
    reflexivity.
Qed.

Lemma price_extraction_total_witness :
  price_of_cell ("$3,999.99 " +:+ "$1999.00" +:+ " each") initial =
    (initial, Ok (float_of_decimal "1999.00")).
Proof.
  destruct price_extraction_total as (_ & _ & _ & H & _).
  apply H. reflexivity.
Defined.

(** ** C10: the price and socket columns are read first *)

(** C10.  The price cell is read before the skip test and the socket cell
    by it: a row without a price cell raises [KeyError], whatever its socket
    cell, also an empty one; a row with a price cell and no socket cell
    raises [KeyError] too; either ends the loop there. *)
Theorem price_and_sockets_required :
  (forall data st,
      data !! "Recommended Customer Price" = None ->
      process_row data st = (st, Raise (KeyError "Recommended Customer Price"))) /\
  (forall data st,
      is_Some (data !! "Recommended Customer Price") ->
      data !! "Sockets Supported" = None ->
      process_row data st = (st, Raise (KeyError "Sockets Supported"))) /\
  (forall data rest st,
      data !! "Recommended Customer Price" = None \/
      data !! "Sockets Supported" = None ->
      exists key, for_each process_row (data :: rest) st = (st, Raise (KeyError key))).
Proof.
  split; [exact missing_price_raises | split; [exact missing_sockets_raises|]].
  intros data rest st Hmiss. cbn [for_each].
  destruct (data !! "Recommended Customer Price") as [cell|] eqn:Hc.
  - destruct Hmiss as [|Hs]; [discriminate|].
    eexists. apply bind_raise, missing_sockets_raises; eauto.
  - eexists. now apply bind_raise, missing_price_raises.
Qed.

Lemma price_and_sockets_required_witness :
  process_row (row_dict socket_first_header short_row) initial =
    (initial, Raise (KeyError "Recommended Customer Price")) /\
  process_row (row_dict full_header price_only_row) initial =
    (initial, Raise (KeyError "Sockets Supported")).
Proof.
  destruct price_and_sockets_required as (H1 & H2 & _). split.
  - apply H1. reflexivity.
  - apply H2; [eexists|]; reflexivity.
Defined.

(** ** C5: one block per row that is not skipped *)

(** C5, as stated, fails: a data line that stops after an empty socket
    cell, in a sheet whose price column comes later, has an empty socket
    cell yet raises [KeyError] and ends the run. *)
Lemma empty_socket_row_can_raise :
  row_dict socket_first_header short_row !! "Sockets Supported" = Some EmptyString /\
  main (two_sheets (sheet socket_first_header [short_row])
                   (sheet full_header [w_2295_row])) initial =
    (initial, Raise (KeyError "Recommended Customer Price")).
Proof. split; vm_compute; reflexivity. Qed.

(** C5, amended.  A row with a non-empty socket cell that ends without an
    exception has printed exactly one block; a row with an empty socket
    cell and a price cell prints nothing, changes nothing, raises nothing,
    and the loop goes on with the next row. *)
Theorem one_block_per_non_skipped_row :
  (forall data st st',
      non_skipped data ->
      process_row data st = (st', Ok tt) ->
      exists a, row_values data a /\ stdout st' = stdout st ++ [formstring_format a]) /\
  (forall data rest st,
      skipped data ->
      process_row data st = (st, Ok tt) /\
      for_each process_row (data :: rest) st = for_each process_row rest st).
Proof.
  split.
  - intros data st st' (s & Hs & Hne) H.
    apply process_row_ok in H as [[[_ Hs'] _]|(a & Hv & _ & ->)]; [congruence|].
    now exists a.
  - intros data rest st Hsk. pose proof (skipped_row data st Hsk) as H.
    split; [assumption|]. cbn [for_each]. now rewrite (bind_step _ _ _ _ _ H).
Qed.

Lemma one_block_per_non_skipped_row_witness :
  for_each process_row
    [row_dict full_header w_2295_no_socket; row_dict full_header w_2295_row] initial =
  for_each process_row [row_dict full_header w_2295_row] initial.
Proof.
  destruct one_block_per_non_skipped_row as (_ & H).
  apply H. split; [eexists|]; reflexivity.
Defined.

(** Split the conjunctions of the goal, leaving definitions folded. *)
Ltac splits :=
  repeat match goal with |- _ /\ _ => split end;
  try assumption; try reflexivity.

(** ** C3: memory speed *)

(** C3.  The memory speed of a printed row is [correct_speed] of the
    greatest of the integers found in the Maximum Memory Speed cell
    followed by the Memory Types cell; [correct_speed] sends 2666 to 2667,
    leaves every other value alone, and applying it twice changes nothing
    more. *)
Theorem memory_speed_is_corrected_maximum :
  (forall data st st',
      non_skipped data ->
      process_row data st = (st', Ok tt) ->
      exists a speed types m,
        stdout st' = stdout st ++ [formstring_format a] /\
        data !! "Maximum Memory Speed" = Some speed /\
        data !! "Memory Types" = Some types /\
        is_max m (map int_of_digits (findall numberre (speed +:+ types))) /\
        f_mem_speed a = correct_speed m) /\
  correct_speed 2666 = 2667 /\
  (forall v, v <> 2666 -> correct_speed v = v) /\
  correct_speed 2933 = 2933 /\ correct_speed 2400 = 2400 /\
  (forall v, correct_speed (correct_speed v) = correct_speed v).
Proof.
  repeat split; try reflexivity.
  - intros data st st' (s & Hs & Hne) H.
    apply process_row_ok in H as [[[_ Hs'] _]|(a & Hv & _ & ->)]; [congruence|].
    destruct (rv_mem_speed _ _ Hv) as (speed & types & m & ? & ? & ? & ?).
    exists a, speed, types, m. splits.
  - intros v Hv. unfold correct_speed.
    destruct (Z.eqb_spec v 2666); [contradiction | reflexivity].
  - intros v. unfold correct_speed.
    destruct (Z.eqb_spec v 2666) as [->|Hv]; [reflexivity|].
    destruct (Z.eqb_spec v 2666); [contradiction | reflexivity].
Qed.

Lemma memory_speed_is_corrected_maximum_witness :
  exists a speed types m,
    stdout (process_row (row_dict full_header gold_5218_row) initial).1 =
      stdout initial ++ [formstring_format a] /\
    row_dict full_header gold_5218_row !! "Maximum Memory Speed" = Some speed /\
    row_dict full_header gold_5218_row !! "Memory Types" = Some types /\
    is_max m (map int_of_digits (findall numberre (speed +:+ types))) /\
    f_mem_speed a = correct_speed m.
Proof.
  destruct memory_speed_is_corrected_maximum as (H & _).
  apply H.
  - eexists. split; [reflexivity | discriminate].
  - vm_compute. reflexivity.
Defined.

(** ** C4: scalability *)

(** C4, as stated, fails: the scalability text [2S (3 UPI links)] contains
    a 3, its first integer is 2, and the row is printed with scalability 2
    in a run that ends normally. *)
Lemma scalability_text_with_3_is_printed :
  row_dict full_header gold_5218_row !! "Scalability" =
    Some ("2S (" +:+ "3" +:+ " UPI links)") /\
  f_scalability gold_5218_printed = 2 /\
  main (two_sheets (sheet full_header [w_2295_row])
                   (sheet full_header [gold_5218_row])) initial =
    (State {["W-2295"; "Gold 5218"]}
           (formstring_format <$> [w_2295_printed; gold_5218_printed]), Ok tt).
Proof. repeat split; vm_compute; reflexivity. Qed.

(** C4, amended.  The scalability of a printed row is the first integer of
    its Scalability cell (the digits after a digit-free prefix, up to the
    next non-digit) and is one of 1, 2, 4, 8.  A row past the skip test
    whose first integer is 3, or any other value outside that set, raises
    and prints nothing; when the row has a price cell, a new name and a
    listed family, and the integer has no more digits than [int] accepts,
    the exception is the scalability assertion. *)
Theorem scalability_first_integer_checked :
  (forall data st st',
      non_skipped data ->
      process_row data st = (st', Ok tt) ->
      exists a cell m pre rest,
        stdout st' = stdout st ++ [formstring_format a] /\
        data !! "Scalability" = Some cell /\
        cell = pre +:+ m +:+ rest /\
        (forall c, In c (list_ascii_of_string pre) -> is_digit c = false) /\
        m <> EmptyString /\ all_digits m /\
        (forall c rest', rest = String c rest' -> is_digit c = false) /\
        f_scalability a = int_of_digits m /\
        f_scalability a ∈ [1; 2; 4; 8]) /\
  (forall data st cell m ms,
      non_skipped data ->
      data !! "Scalability" = Some cell ->
      findall numberre cell = m :: ms ->
      int_of_digits m ∉ [1; 2; 4; 8] ->
      exists st' e, process_row data st = (st', Raise e) /\ stdout st' = stdout st) /\
  (forall data st name pc tag cell m ms,
      is_Some (data !! "Recommended Customer Price") ->
      non_skipped data ->
      data !! "Name" = Some name ->
      name ∉ observed st ->
      data !! "Product Collection" = Some pc ->
      (pc, tag) ∈ known_families ->
      data !! "Scalability" = Some cell ->
      findall numberre cell = m :: ms ->
      (String.length m <= int_max_str_digits)%nat ->
      int_of_digits m ∉ [1; 2; 4; 8] ->
      process_row data st =
        (named name st, Raise (AssertionError InvalidScalability None))).
Proof.
  split; [|split].
  - intros data st st' (s & Hs & Hne) H.
    apply process_row_ok in H as [[[_ Hs'] _]|(a & Hv & _ & ->)]; [congruence|].
    destruct (rv_scalability _ _ Hv) as (cell & m & ms & Hc & Hm & Hval & Hin).
    destruct (numberre_first _ _ _ Hm) as (pre & rest & ? & ? & ? & ? & ?).
    exists a, cell, m, pre, rest. splits.
  - intros data st cell m ms (s & Hs & Hne) Hc Hm Hbad.
    destruct (process_row_outcome data st)
      as [(st' & e & ? & ?)|[[[_ Hs'] _]|(a & Hv & _ & _)]]; [eauto | congruence |].
    destruct (rv_scalability _ _ Hv) as (cell' & m' & ms' & Hc' & Hm' & Hval & Hin).
    rewrite Hc in Hc'. injection Hc' as <-. rewrite Hm in Hm'. injection Hm' as <- _.
    rewrite Hval in Hin. contradiction.
  - intros. eapply bad_scalability_raises; eassumption.
Qed.

Lemma scalability_first_integer_checked_witness :
  process_row (row_dict full_header three_socket_row) initial =
    (named "Gold 5220" initial, Raise (AssertionError InvalidScalability None)).
Proof.
  destruct scalability_first_integer_checked as (_ & _ & H).
  eapply (H _ _ _ _ _ _ "3" []).
  - eexists. reflexivity.
  - eexists. split; [reflexivity | discriminate].
  - reflexivity.
  - cbn. apply not_elem_of_empty.
  - reflexivity.
  - apply list_elem_of_further, list_elem_of_here.
  - reflexivity.
  - reflexivity.
  - apply Nat.leb_le. vm_compute. reflexivity.
  - vm_compute. intros H3. repeat (apply elem_of_cons in H3 as [H3|H3]; [discriminate H3|]).
    now apply elem_of_nil in H3.
Defined.

(** ** C7: product families *)

(** C7, as stated, fails: a row past the skip test whose Product Collection
    string is none of the four, listed under a name that was seen before,
    ends the run with the duplicate-name assertion, which comes first, and
    not with the family assertion. *)
Lemma unlisted_family_under_seen_name :
  non_skipped (row_dict full_header e_2288g_row) /\
  row_dict full_header e_2288g_row !! "Product Collection" =
    Some "Intel® Xeon® E Processor" /\
  (forall tag, ("Intel® Xeon® E Processor", tag) ∉ known_families) /\
  main (two_sheets (sheet full_header [e_2288g_listed_row; e_2288g_row])
                   (sheet full_header [gold_5218_row])) initial =
    (State {["E-2288G"]} [formstring_format e_2288g_listed_printed],
     Raise (AssertionError DuplicateName None)).
Proof.
  split; [|split; [|split]].
  - eexists. split; [reflexivity | discriminate].
  - reflexivity.
  - intros tag Hin.
    repeat (apply elem_of_cons in Hin as [Hin|Hin]; [discriminate Hin|]).
    now apply elem_of_nil in Hin.
  - vm_compute. reflexivity.
Qed.

(** C7, amended.  The Product Collection cell is compared for equality with
    four vendor strings, tagged XeonScalable, XeonScalableV2, XeonW and
    XeonD.  Any other string makes a row past the skip test raise without
    printing and without a default tag; the exception is the family
    assertion carrying the string when the row has a price cell and a name
    not seen before (under a seen name the name assertion raises first).  A
    printed row has as type the tag of its string, an underscore and its
    Sockets Supported cell. *)
Theorem family_exact_match :
  snd <$> known_families = ["XeonScalable"; "XeonScalableV2"; "XeonW"; "XeonD"] /\
  (forall pc st,
      (exists tag, (pc, tag) ∈ known_families /\ family pc st = (st, Ok tag)) \/
      ((forall tag, (pc, tag) ∉ known_families) /\
       family pc st = (st, Raise (AssertionError UnrecognizedFamily (Some pc))))) /\
  (forall data st pc,
      non_skipped data ->
      data !! "Product Collection" = Some pc ->
      (forall tag, (pc, tag) ∉ known_families) ->
      exists st' e, process_row data st = (st', Raise e) /\ stdout st' = stdout st) /\
  (forall data st name pc,
      is_Some (data !! "Recommended Customer Price") ->
      non_skipped data ->
      data !! "Name" = Some name ->
      name ∉ observed st ->
      data !! "Product Collection" = Some pc ->
      (forall tag, (pc, tag) ∉ known_families) ->
      process_row data st =
        (named name st, Raise (AssertionError UnrecognizedFamily (Some pc)))) /\
  (forall data st st' sockets,
      data !! "Sockets Supported" = Some sockets ->
      sockets <> EmptyString ->
      process_row data st = (st', Ok tt) ->
      exists a pc tag,
        stdout st' = stdout st ++ [formstring_format a] /\
        data !! "Product Collection" = Some pc /\
        (pc, tag) ∈ known_families /\
        f_typ a = tag +:+ "_" +:+ sockets).
Proof.
  split; [reflexivity|]. split; [exact family_cases|]. split; [|split].
  - intros data st pc (s & Hs & Hne) Hpc Hunk.
    destruct (process_row_outcome data st)
      as [(st' & e & ? & ?)|[[[_ Hs'] _]|(a & Hv & _ & _)]]; [eauto | congruence |].
    destruct (rv_typ _ _ Hv) as (s' & pc' & tag & _ & _ & Hpc' & Hin & _).
    rewrite Hpc in Hpc'. injection Hpc' as <-. now destruct (Hunk tag).
  - intros. eapply unknown_family_raises; eassumption.
  - intros data st st' s Hs Hne H.
    apply process_row_ok in H as [[[_ Hs'] _]|(a & Hv & _ & ->)]; [congruence|].
    destruct (rv_typ _ _ Hv) as (s' & pc & tag & Hs' & _ & Hpc & Hin & Htyp).
    rewrite Hs in Hs'. injection Hs' as <-.
    exists a, pc, tag. splits.
Qed.

Lemma family_exact_match_witness :
  process_row (row_dict full_header e_2288g_row) initial =
    (named "E-2288G" initial,
     Raise (AssertionError UnrecognizedFamily (Some "Intel® Xeon® E Processor"))).
Proof.
  destruct family_exact_match as (_ & _ & _ & H & _).
  apply H.
  - eexists. reflexivity.
  - eexists. split; [reflexivity | discriminate].
  - reflexivity.
  - cbn. apply not_elem_of_empty.
  - reflexivity.
  - intros tag Hin.
    repeat (apply elem_of_cons in Hin as [Hin|Hin]; [discriminate Hin|]).
    now apply elem_of_nil in Hin.
Defined.

(** ** C8: the fixed parts of a block *)

(** C8.  Every printed block has the three lines [turbo_rate: None,],
    [avx512_rate: None,] and [avx512_turbo_rate: None,], a line
    [avx512_fma_units: Some(n),] with [n] the integer parsed from the row's
    AVX-512 FMA Units cell, a line [mem_support: MemoryType::DDR4_v,] with
    [v] the corrected memory speed, and ends with a closing brace and a
    comma. *)
Theorem block_fixed_parts (data : gmap string string) (st st' : state) :
  non_skipped data ->
  process_row data st = (st', Ok tt) ->
  exists a cell speed types m pre mid1 mid2 post,
    stdout st' = stdout st ++ [formstring_format a] /\
    data !! "# of AVX-512 FMA Units" = Some cell /\
    py_int cell = Ok (f_avx512_fma_units a) /\
    data !! "Maximum Memory Speed" = Some speed /\
    data !! "Memory Types" = Some types /\
    is_max m (map int_of_digits (findall numberre (speed +:+ types))) /\
    f_mem_speed a = correct_speed m /\
    formstring_format a =
      pre +:+
      "    turbo_rate: None," +:+ nl +:+
      "    avx512_rate: None," +:+ nl +:+
      "    avx512_turbo_rate: None," +:+ nl +:+
      mid1 +:+
      "    avx512_fma_units: Some(" +:+ str_of_int (f_avx512_fma_units a) +:+ ")," +:+ nl +:+
      mid2 +:+
      "    mem_support: MemoryType::DDR4_" +:+ str_of_int (f_mem_speed a) +:+ "," +:+ nl +:+
      post +:+
      "},".
Proof.
  intros (s & Hs & Hne) H.
  apply process_row_ok in H as [[[_ Hs'] _]|(a & Hv & _ & ->)]; [congruence|].
  destruct (rv_avx512_fma_units _ _ Hv) as (cell & Hcell & Hint).
  destruct (rv_mem_speed _ _ Hv) as (speed & types & m & ? & ? & ? & ?).
  exists a, cell, speed, types, m.
  exists ("Processor {" +:+ nl +:+
          "    manufacturer: " +:+ dq +:+ "Intel" +:+ dq +:+ "," +:+ nl +:+
          "    name: " +:+ dq +:+ f_name a +:+ dq +:+ "," +:+ nl +:+
          "    price: " +:+ format_2f (f_price a) +:+ "," +:+ nl +:+
          "    clock_rate: " +:+ f_clock_rate a +:+ "," +:+ nl).
  exists ("    cores: " +:+ str_of_int (f_cores a) +:+ "," +:+ nl +:+
          "    threads: " +:+ str_of_int (f_threads a) +:+ "," +:+ nl).
  exists ("    typ: ProcessorType::" +:+ f_typ a +:+ "," +:+ nl +:+
          "    scalability: " +:+ str_of_int (f_scalability a) +:+ "," +:+ nl).
  exists ("    mem_channels: " +:+ str_of_int (f_mem_channels a) +:+ "," +:+ nl).
  splits. unfold formstring_format. rewrite !append_assoc. reflexivity.
Qed.

Lemma block_fixed_parts_witness :
  exists a cell,
    stdout (process_row (row_dict full_header w_2295_row) initial).1 =
      stdout initial ++ [formstring_format a] /\
    row_dict full_header w_2295_row !! "# of AVX-512 FMA Units" = Some cell /\
    py_int cell = Ok (f_avx512_fma_units a).
Proof.
  destruct (block_fixed_parts (row_dict full_header w_2295_row) initial
              (process_row (row_dict full_header w_2295_row) initial).1)
    as (a & cell & _ & _ & _ & _ & _ & _ & _ & Hout & Hc & Hi & _).
  - eexists. split; [reflexivity | discriminate].
  - vm_compute. reflexivity.
  - exists a, cell. exact (conj Hout (conj Hc Hi)).
Defined.

(** ** C2: names *)

Lemma run_rows_two_sheets (xeon_w gen2 : string) :
  run_rows (two_sheets xeon_w gen2) = file_rows xeon_w ++ file_rows gen2.
Proof.
  unfold run_rows, rows_of, two_sheets.
  rewrite lookup_insert_eq, lookup_insert_ne by discriminate.
  now rewrite lookup_insert_eq.
Qed.

Lemma file_rows_lines (text : string) (header : list string) (data : list (list string)) :
  map (split ";") (splitlines text) = header :: data ->
  file_rows text = map (dict_zip header) data.
Proof. unfold file_rows. now intros ->. Qed.

(** C2, as stated, fails: two rows of one sheet carry the name W-2295, the
    first with an empty socket cell, and the run ends normally with the
    second one printed. *)
Lemma repeated_name_after_skipped_row_runs :
  row_dict full_header w_2295_no_socket !! "Name" = Some "W-2295" /\
  row_dict full_header w_2295_row !! "Name" = Some "W-2295" /\
  main (two_sheets (sheet full_header [w_2295_no_socket; w_2295_row])
                   (sheet full_header [gold_5218_row])) initial =
    (State {["W-2295"; "Gold 5218"]}
           (formstring_format <$> [w_2295_printed; gold_5218_printed]), Ok tt).
Proof. repeat split; vm_compute; reflexivity. Qed.

(** C2, amended.  Whatever way a run ends, the blocks it printed come from
    rows of the run and carry pairwise distinct names.  A run whose rows
    include two rows past the skip test (non-empty socket cells) with equal
    Name cells, in one file or across the two, raises: it never prints a
    second block under that name.  At such a row, reached with its name in
    [observed] and with a price cell, the exception is the duplicate-name
    assertion. *)
Theorem names_pairwise_distinct :
  (forall fs, exists blocks,
      stdout (main fs initial).1 = formstring_format <$> blocks /\
      NoDup (f_name <$> blocks) /\
      Forall (fun a => exists data, data ∈ run_rows fs /\ row_values data a) blocks) /\
  (forall fs l1 d1 l2 d2 l3 name,
      run_rows fs = l1 ++ d1 :: l2 ++ d2 :: l3 ->
      non_skipped d1 -> non_skipped d2 ->
      d1 !! "Name" = Some name -> d2 !! "Name" = Some name ->
      exists e, (main fs initial).2 = Raise e) /\
  (forall data st name,
      is_Some (data !! "Recommended Customer Price") ->
      non_skipped data ->
      data !! "Name" = Some name ->
      name ∈ observed st ->
      process_row data st = (st, Raise (AssertionError DuplicateName None))).
Proof.
  split; [|split].
  - intros fs. destruct (main_state fs initial) as (rows & rest & Hrows & ->).
    destruct (for_each process_row rows initial) as [st' r] eqn:E.
    apply for_each_printed in E as (blocks & Hout & Hnd & Hall & _).
    exists blocks. splits. eapply Forall_impl; [exact Hall|]. cbn.
    intros a (_ & _ & d & Hd & Hv). exists d. split; [|assumption].
    rewrite Hrows. apply elem_of_app. now left.
  - intros fs l1 d1 l2 d2 l3 name Hrows (s1 & Hs1 & Hne1) (s2 & Hs2 & Hne2) Hn1 Hn2.
    destruct (main fs initial) as [st' [[]|e]] eqn:E; [exfalso | now exists e].
    apply main_ok in E. rewrite Hrows in E.
    apply for_each_app_ok in E as (st1 & _ & E).
    apply for_each_cons_ok in E as (st2 & Hd1 & E).
    apply for_each_app_ok in E as (st3 & Hl2 & E).
    apply for_each_cons_ok in E as (st4 & Hd2 & _).
    apply for_each_observed in Hl2.
    apply process_row_ok in Hd1 as [[[_ Hs'] _]|(a1 & Hv1 & _ & ->)]; [congruence|].
    apply process_row_ok in Hd2 as [[[_ Hs'] _]|(a2 & Hv2 & Hnew & _)]; [congruence|].
    pose proof (rv_name _ _ Hv1) as Ha1. pose proof (rv_name _ _ Hv2) as Ha2.
    rewrite Hn1 in Ha1. rewrite Hn2 in Ha2.
    injection Ha1 as Ha1. injection Ha2 as Ha2. subst name.
    apply Hnew. rewrite Hl2, <- Ha2. cbn. set_solver.
  - intros. eapply duplicate_name_raises; eassumption.
Qed.

Lemma names_pairwise_distinct_witness :
  exists e,
    (main (two_sheets (sheet full_header [w_2295_row])
                      (sheet full_header [gold_5218_row; w_2295_row])) initial).2 = Raise e.
Proof.
  destruct names_pairwise_distinct as (_ & H & _).
  apply (H _ [] (row_dict full_header w_2295_row)
           [row_dict full_header gold_5218_row] (row_dict full_header w_2295_row)
           [] "W-2295").
  - rewrite run_rows_two_sheets.
    rewrite (file_rows_lines _ (split ";" full_header) [split ";" w_2295_row])
      by (vm_compute; reflexivity).
    rewrite (file_rows_lines _ (split ";" full_header)
               [split ";" gold_5218_row; split ";" w_2295_row])
      by (vm_compute; reflexivity).
    reflexivity.
  - eexists. split; [reflexivity | discriminate].
  - eexists. split; [reflexivity | discriminate].
  - reflexivity.
  - reflexivity.
Defined.

(** ** C9: what [observed] holds *)

(** C9.  After a run that ends normally [observed] holds exactly the names
    of the rows that got past the skip test.  A row with an empty socket
    cell records no name, and the loop over it and the rows after it is the
    loop over the rows after it: a later row under the same name is printed
    as if the skipped one were not there. *)
Theorem observed_holds_non_skipped_names :
  (forall fs st',
      main fs initial = (st', Ok tt) ->
      observed st' = ⋃ (row_name <$> run_rows fs)) /\
  (forall data sockets name,
      data !! "Sockets Supported" = Some sockets -> sockets <> EmptyString ->
      data !! "Name" = Some name ->
      row_name data = {[name]}) /\
  (forall data,
      data !! "Sockets Supported" = Some EmptyString -> row_name data = ∅) /\
  (forall data st,
      skipped data -> process_row data st = (st, Ok tt)) /\
  (forall data rest st,
      skipped data ->
      for_each process_row (data :: rest) st = for_each process_row rest st).
Proof.
  split; [|split; [|split; [|split]]].
  - intros fs st' H. apply main_ok, for_each_observed in H.
    rewrite H. cbn. set_solver.
  - intros data s name Hs Hne Hn. unfold row_name. rewrite Hs, Hn.
    now destruct (String.eqb_spec s EmptyString).
  - intros data Hs. unfold row_name. rewrite Hs.
    now destruct (data !! "Name").
  - exact skipped_row.
  - intros data rest st Hsk. cbn [for_each].
    now rewrite (bind_step _ _ _ _ _ (skipped_row data st Hsk)).
Qed.

Lemma observed_holds_non_skipped_names_witness :
  observed (main (two_sheets (sheet full_header [w_2295_no_socket; w_2295_row])
                             (sheet full_header [gold_5218_row])) initial).1 =
  ⋃ (row_name <$> run_rows (two_sheets (sheet full_header [w_2295_no_socket; w_2295_row])
                                       (sheet full_header [gold_5218_row]))).
Proof.
  destruct observed_holds_non_skipped_names as (H & _).
  apply H. vm_compute. reflexivity.
Defined.

(** * Further properties *)

(** ** The loader: cells *)

Lemma split_cons_inv (sep : ascii) (s : string) :
  exists cell cells, split sep s = cell :: cells.
Proof.
  induction s as [|c s (cell & cells & IH)]; cbn [split]; [eauto|].
  destruct (Ascii.eqb c sep); [eauto|]. rewrite IH. eauto.
Qed.

Lemma concat_cons (sep x : string) (y : string) (l : list string) :
  String.concat sep (x :: y :: l) = x +:+ sep +:+ String.concat sep (y :: l).
Proof. reflexivity. Qed.

(** X1.  [";".join(line.split(";")) == line], no cell holds a semicolon, and
    there is one cell more than there are semicolons: nothing quotes or
    escapes the separator. *)
Theorem split_join (sep : ascii) (s : string) :
  String.concat (String sep EmptyString) (split sep s) = s /\
  Forall (no_char sep) (split sep s) /\
  length (split sep s) =
    S (length (filter (fun c => c = sep) (list_ascii_of_string s))).
Proof.
  induction s as [|c s (IH1 & IH2 & IH3)].
  - cbn. repeat split. repeat constructor. now intros [].
  - cbn [split list_ascii_of_string]. rewrite filter_cons.
    destruct (split_cons_inv sep s) as (cell & cells & E). rewrite E in *.
    destruct (Ascii.eqb_spec c sep) as [->|Hne].
    + rewrite decide_True by reflexivity. repeat split.
      * rewrite concat_cons, IH1. reflexivity.
      * constructor; [now intros []|assumption].
      * cbn [length] in *. congruence.
    + rewrite decide_False by assumption. repeat split.
      * rewrite <- IH1. destruct cells; [reflexivity|].
        rewrite !concat_cons. reflexivity.
      * apply Forall_cons in IH2 as [H1 H2]. constructor; [|assumption].
        intros [Heq|Hin]; [congruence | contradiction].
      * exact IH3.
Qed.

(** X2.  The other way round: cells without semicolons, joined and split
    again, come back as they were. *)
Theorem join_split (sep : ascii) (cell : string) (cells : list string) :
  Forall (no_char sep) (cell :: cells) ->
  split sep (String.concat (String sep EmptyString) (cell :: cells)) = cell :: cells.
Proof.
  revert cell. induction cells as [|y cells IH]; intros cell Hall.
  - cbn [String.concat]. apply Forall_cons in Hall as [Hc _].
    induction cell as [|c cell IHc]; [reflexivity|]. cbn [split].
    destruct (Ascii.eqb_spec c sep) as [->|Hne]; [destruct Hc; now left|].
    rewrite IHc; [reflexivity|]. intros Hin. apply Hc. now right.
  - rewrite concat_cons. apply Forall_cons in Hall as [Hc Hall].
    specialize (IH y Hall).
    induction cell as [|c cell IHc].
    + rewrite append_nil_l, append_cons, append_nil_l. cbn [split].
      rewrite Ascii.eqb_refl. now rewrite IH.
    + rewrite append_cons. cbn [split].
      destruct (Ascii.eqb_spec c sep) as [->|Hne]; [destruct Hc; now left|].
      rewrite IHc; [reflexivity|]. intros Hin. apply Hc. now right.
Qed.

Lemma join_split_witness :
  split ";" (String.concat ";" ["W-2295"; "$1333.00"; EmptyString; "1S"]) =
    ["W-2295"; "$1333.00"; EmptyString; "1S"].
Proof.
  apply (join_split ";" "W-2295" ["$1333.00"; EmptyString; "1S"]).
  repeat constructor; unfold no_char; cbn; intuition discriminate.
Defined.

(** ** The loader: row dictionaries *)

Lemma dict_of_pairs_snoc (l : list (string * string)) (k v : string) :
  dict_of_pairs (l ++ [(k, v)]) = <[k := v]> (dict_of_pairs l).
Proof. unfold dict_of_pairs. now rewrite fold_left_app. Qed.

(** A key is bound to the value of its last pair. *)
Lemma dict_of_pairs_lookup (l : list (string * string)) (k v : string) :
  dict_of_pairs l !! k = Some v <->
  exists i, l !! i = Some (k, v) /\
            forall j v', (i < j)%nat -> l !! j <> Some (k, v').
Proof.
  induction l as [|[k' v'] l IH] using rev_ind.
  - split; [discriminate|]. now intros (i & Hi & _).
  - rewrite dict_of_pairs_snoc, lookup_insert.
    destruct (decide (k' = k)) as [->|Hne]; split.
    + intros [= ->]. exists (length l). split.
      * now rewrite list_lookup_middle.
      * intros j v'' Hj. rewrite lookup_ge_None_2; [discriminate|].
        rewrite length_app. cbn. lia.
    + intros (i & Hi & Hlast).
      destruct (decide (i < length l)%nat) as [Hlt|Hge].
      * exfalso. apply (Hlast (length l) v'); [assumption|].
        now rewrite list_lookup_middle.
      * apply lookup_lt_Some in Hi as Hi'. rewrite length_app in Hi'. cbn in Hi'.
        assert (i = length l) as -> by lia.
        rewrite list_lookup_middle in Hi by reflexivity. congruence.
    + intros H. apply IH in H as (i & Hi & Hlast). exists i. split.
      * rewrite lookup_app_l; [assumption|]. now apply lookup_lt_Some in Hi.
      * intros j v'' Hj Hl. apply lookup_app_Some in Hl as [Hl|[_ Hl]].
        -- now apply (Hlast j v'').
        -- apply list_lookup_singleton_Some in Hl as [_ Hl]. congruence.
    + intros (i & Hi & Hlast). apply IH.
      apply lookup_app_Some in Hi as [Hi|[_ Hi]].
      * exists i. split; [assumption|]. intros j v'' Hj Hl.
        apply (Hlast j v''); [assumption|].
        rewrite lookup_app_l; [assumption|]. now apply lookup_lt_Some in Hl.
      * apply list_lookup_singleton_Some in Hi as [_ Hi]. congruence.
Qed.

Lemma dict_of_pairs_lookup_None (l : list (string * string)) (k : string) :
  dict_of_pairs l !! k = None <-> forall i v, l !! i <> Some (k, v).
Proof.
  split.
  - intros Hnone i v Hi.
    assert (Hin : exists i, l !! i = Some (k, v)) by eauto. clear i Hi.
    induction l as [|[k' v'] l IH] using rev_ind; [now destruct Hin|].
    rewrite dict_of_pairs_snoc, lookup_insert in Hnone.
    destruct (decide (k' = k)); [discriminate|].
    destruct Hin as (i & Hi). apply lookup_app_Some in Hi as [Hi|[_ Hi]]; [eauto|].
    apply list_lookup_singleton_Some in Hi as [_ Hi]. congruence.
  - intros Hall. destruct (dict_of_pairs l !! k) as [v|] eqn:E; [|reflexivity].
    apply dict_of_pairs_lookup in E as (i & Hi & _). now destruct (Hall i v).
Qed.

(** X3.  [dict(zip(column_header, data))[key]] is the cell under the last
    column named [key] that the data line reaches; a key is missing exactly
    when every column of that name lies past the end of the data line. *)
Theorem dict_zip_lookup (column_header data : list string) (key : string) :
  (forall cell,
      dict_zip column_header data !! key = Some cell <->
      exists i, column_header !! i = Some key /\ data !! i = Some cell /\
                forall j, (i < j)%nat -> (j < length data)%nat ->
                          column_header !! j <> Some key) /\
  (dict_zip column_header data !! key = None <->
   forall i, column_header !! i = Some key -> (length data <= i)%nat).
Proof.
  assert (Hsome : forall cell,
      dict_zip column_header data !! key = Some cell <->
      exists i, column_header !! i = Some key /\ data !! i = Some cell /\
                forall j, (i < j)%nat -> (j < length data)%nat ->
                          column_header !! j <> Some key).
  { intros cell. change (dict_zip column_header data)
      with (dict_of_pairs (zip column_header data)).
    rewrite dict_of_pairs_lookup. split.
    - intros (i & Hi & Hlast).
      apply lookup_zip_with_Some in Hi as (x & y & [= <- <-] & Hx & Hy).
      exists i. splits. intros j Hj Hlen Hk.
      destruct (lookup_lt_is_Some_2 data j Hlen) as [y' Hy'].
      apply (Hlast j y' Hj). apply lookup_zip_with_Some. eauto.
    - intros (i & Hx & Hy & Hlast). exists i. split.
      + apply lookup_zip_with_Some. eauto.
      + intros j v' Hj Hl.
        apply lookup_zip_with_Some in Hl as (x & y & [= <- <-] & Hx' & Hy').
        apply (Hlast j); [assumption | | assumption].
        now apply lookup_lt_Some in Hy'. }
  split; [exact Hsome|]. split.
  - change (dict_zip column_header data) with (dict_of_pairs (zip column_header data)).
    rewrite dict_of_pairs_lookup_None. intros Hnone i Hi.
    destruct (decide (length data <= i)%nat) as [|Hlt]; [assumption|]. exfalso.
    destruct (lookup_lt_is_Some_2 data i ltac:(lia)) as [cell Hc].
    apply (Hnone i cell). apply lookup_zip_with_Some. eauto.
  - intros Hall. apply eq_None_not_Some. intros [cell E].
    apply Hsome in E as (i & Hi & Hc & _).
    apply lookup_lt_Some in Hc. specialize (Hall i Hi). lia.
Qed.

Lemma dict_of_pairs_elem_of (l : list (string * string)) (k v : string) :
  NoDup l.*1 ->
  dict_of_pairs l !! k = Some v <-> (k, v) ∈ l.
Proof.
  intros Hnd. rewrite dict_of_pairs_lookup. split.
  - intros (i & Hi & _). apply list_elem_of_lookup. eauto.
  - intros Hin. apply list_elem_of_lookup in Hin as (i & Hi). exists i.
    split; [assumption|]. intros j v' Hj Hl.
    assert (Hki : l.*1 !! i = Some k) by (rewrite list_lookup_fmap, Hi; reflexivity).
    assert (Hkj : l.*1 !! j = Some k) by (rewrite list_lookup_fmap, Hl; reflexivity).
    pose proof (NoDup_lookup _ _ _ _ Hnd Hki Hkj). lia.
Qed.

(** X4.  Cells are read by name: with distinct column names, moving the columns
    of the header and of a data line around in the same way gives the same
    dictionary, hence the same outcome for the row. *)
Theorem column_order_is_irrelevant (header header' data data' : list string) :
  NoDup (zip header data).*1 ->
  zip header data ≡ₚ zip header' data' ->
  dict_zip header data = dict_zip header' data' /\
  process_row (dict_zip header data) = process_row (dict_zip header' data').
Proof.
  intros Hnd Hperm.
  assert (E : dict_zip header data = dict_zip header' data'); [|now rewrite E].
  change (dict_of_pairs (zip header data) = dict_of_pairs (zip header' data')).
  assert (Hnd' : NoDup (zip header' data').*1) by now rewrite <- Hperm.
  apply map_eq. intros k. apply option_eq. intros v.
  rewrite !dict_of_pairs_elem_of by assumption. now rewrite Hperm.
Qed.

Lemma column_order_is_irrelevant_witness :
  dict_zip ["Name"; "Sockets Supported"; "Recommended Customer Price"]
           ["W-2295"; "1S"; "$1333.00"] =
  dict_zip ["Recommended Customer Price"; "Name"; "Sockets Supported"]
           ["$1333.00"; "W-2295"; "1S"].
Proof.
  apply column_order_is_irrelevant.
  - cbn. repeat constructor; rewrite ?elem_of_cons, ?elem_of_nil;
      intuition discriminate.
  - cbn. etransitivity; [apply perm_skip, Permutation_swap | apply Permutation_swap].
Defined.

(** ** The loader: lines *)

Lemma splitlines_from_cur (cur s : string) :
  cur <> EmptyString -> splitlines_from 0 cur s <> [].
Proof.
  revert cur. induction s as [|c s IH]; intros cur Hcur; cbn [splitlines_from].
  - now destruct cur.
  - destruct (line_break_len (String c s)); [|discriminate].
    apply IH. now destruct cur.
Qed.

(** Only the empty text has no line. *)
Lemma splitlines_nil (s : string) : splitlines s = [] <-> s = EmptyString.
Proof.
  split; [|now intros ->]. destruct s as [|c s]; [reflexivity|].
  unfold splitlines. cbn [splitlines_from].
  destruct (line_break_len (String c s)); [|discriminate].
  intros H. now apply splitlines_from_cur in H.
Qed.

(** X5.  What [process] does before its loop.  A missing file raises
    [FileNotFoundError]; an empty file has no header line and raises
    [IndexError] at [data[0]]; any other text has a header and [process] is
    the loop over its data lines, so a sheet with a header and no data line
    prints nothing and ends normally.  The state is untouched until the
    loop starts. *)
Theorem process_before_the_loop (fs : gmap string string) (fn : string) (st : state) :
  (fs !! fn = None -> process fs fn st = (st, Raise (FileNotFoundError fn))) /\
  (fs !! fn = Some EmptyString -> process fs fn st = (st, Raise IndexError)) /\
  (forall text,
      fs !! fn = Some text -> text <> EmptyString ->
      process fs fn st = for_each process_row (file_rows text) st /\
      (file_rows text = [] -> process fs fn st = (st, Ok tt))).
Proof.
  unfold process, read_file, bind. split; [|split].
  - now intros ->.
  - now intros ->.
  - intros text -> Hne. cbn. unfold file_rows.
    destruct (map (split ";") (splitlines text)) as [|h rs] eqn:E.
    + apply map_eq_nil, splitlines_nil in E. contradiction.
    + cbn. rewrite for_each_map. split; [reflexivity|]. now intros ->.
Qed.

Lemma process_before_the_loop_witness :
  process (two_sheets full_header EmptyString) "xeon_w.csv" initial = (initial, Ok tt) /\
  process (two_sheets full_header EmptyString) "xeon_scalable_gen2.csv" initial =
    (initial, Raise IndexError) /\
  process (two_sheets full_header EmptyString) "xeon_d.csv" initial =
    (initial, Raise (FileNotFoundError "xeon_d.csv")).
Proof.
  split; [|split].
  - destruct (process_before_the_loop (two_sheets full_header EmptyString)
                "xeon_w.csv" initial) as (_ & _ & H).
    apply (H full_header); [reflexivity | discriminate | vm_compute; reflexivity].
  - apply process_before_the_loop. reflexivity.
  - apply process_before_the_loop. reflexivity.
Defined.

(** X6.  A blank data line is a single empty cell; whatever the
    header, its dictionary has at most the first column, so the row raises
    [KeyError] on the price or on the socket column and ends the run. *)
Theorem blank_line_raises (column_header : list string) (st : state) :
  split ";" EmptyString = [EmptyString] /\
  exists key,
    key ∈ ["Recommended Customer Price"; "Sockets Supported"] /\
    process_row (dict_zip column_header (split ";" EmptyString)) st =
      (st, Raise (KeyError key)).
Proof.
  split; [reflexivity|]. cbn [split].
  destruct column_header as [|h0 hs].
  - exists "Recommended Customer Price". split; [left|].
    now apply missing_price_raises.
  - assert (E : dict_zip (h0 :: hs) [EmptyString] = {[h0 := EmptyString]}).
    { unfold dict_zip. cbn. destruct hs; reflexivity. }
    rewrite E. destruct (decide (h0 = "Recommended Customer Price")) as [->|Hne].
    + exists "Sockets Supported". split; [right; left|].
      apply missing_sockets_raises.
      * rewrite lookup_singleton_eq. eauto.
      * now apply lookup_singleton_ne.
    + exists "Recommended Customer Price". split; [left|].
      apply missing_price_raises. now apply lookup_singleton_ne.
Qed.

(** ** The run as a whole *)

(** X7.  Output is only ever appended and names are only ever added: whatever
    the two sheets hold and however the run ends, what was printed before
    is a prefix of what is printed after, and no seen name is forgotten. *)
Theorem main_only_appends (fs : gmap string string) (st : state) :
  stdout st `prefix_of` stdout (main fs st).1 /\
  observed st ⊆ observed (main fs st).1 /\
  stdout st `prefix_of` stdout (process fs "xeon_w.csv" st).1.
Proof.
  destruct (main_state fs st) as (rows & rest & _ & ->).
  destruct (for_each process_row rows st) as [st' r] eqn:E.
  apply for_each_printed in E as (blocks & Hout & _ & _ & Hsub). cbn.
  split; [|split]; [rewrite Hout; now apply prefix_app_r | assumption |].
  destruct (process_cases fs "xeon_w.csv" st) as [[_ (e & ->)]| ->]; [reflexivity|].
  destruct (for_each process_row _ st) as [st1 r1] eqn:E1.
  apply for_each_printed in E1 as (blocks1 & Hout1 & _). cbn.
  rewrite Hout1. now apply prefix_app_r.
Qed.

(** X8.  The loop stops at the first row that raises: the rows after it are
    not looked at, and what the rows before it printed stays printed. *)
Theorem loop_stops_at_first_exception
    (before after : list (gmap string string)) (data : gmap string string)
    (st st1 st2 : state) (e : exn) :
  for_each process_row before st = (st1, Ok tt) ->
  process_row data st1 = (st2, Raise e) ->
  for_each process_row (before ++ data :: after) st = (st2, Raise e) /\
  stdout st2 = stdout st1.
Proof.
  intros Hb Hd. split.
  - rewrite for_each_app, (bind_step _ _ _ _ _ Hb). cbn [for_each].
    now apply bind_raise.
  - exact (process_row_quiet_on_raise data _ _ _ Hd).
Qed.

Lemma loop_stops_at_first_exception_witness :
  for_each process_row
    ([row_dict full_header w_2295_row] ++
     row_dict full_header three_socket_row :: [row_dict full_header gold_5218_row])
    initial =
  (State {["W-2295"; "Gold 5220"]} [formstring_format w_2295_printed],
   Raise (AssertionError InvalidScalability None)) /\
  stdout (State {["W-2295"; "Gold 5220"]} [formstring_format w_2295_printed]) =
  stdout (State {["W-2295"]} [formstring_format w_2295_printed]).
Proof.
  apply (loop_stops_at_first_exception
           [row_dict full_header w_2295_row] [row_dict full_header gold_5218_row]
           (row_dict full_header three_socket_row) initial
           (State {["W-2295"]} [formstring_format w_2295_printed])
           (State {["W-2295"; "Gold 5220"]} [formstring_format w_2295_printed])
           (AssertionError InvalidScalability None)).
  - vm_compute. reflexivity.
  - vm_compute. reflexivity.
Defined.

Lemma has_sockets_non_skipped (data : gmap string string) :
  has_sockets data = true <-> non_skipped data.
Proof.
  unfold has_sockets, non_skipped. split.
  - destruct (data !! "Sockets Supported") as [s|]; [|discriminate].
    intros H. exists s. split; [reflexivity|].
    now apply negb_true_iff, String.eqb_neq in H.
  - intros (s & -> & Hne). now apply negb_true_iff, String.eqb_neq.
Qed.

(** X9.  A loop that ends normally has printed one block for each row with a
    non-empty socket cell, in the order of the rows, and nothing else. *)
Theorem blocks_follow_row_order (rows : list (gmap string string)) (st st' : state) :
  for_each process_row rows st = (st', Ok tt) ->
  exists blocks,
    stdout st' = stdout st ++ (formstring_format <$> blocks) /\
    Forall2 row_values (filter (fun data => has_sockets data = true) rows) blocks.
Proof.
  revert st. induction rows as [|d rows IH]; intros st H.
  - injection H as <-. exists []. rewrite app_nil_r. split; [reflexivity | constructor].
  - apply for_each_cons_ok in H as (st1 & Hd & H).
    apply IH in H as (blocks & Hout & Hall). rewrite filter_cons.
    apply process_row_ok in Hd as [[[_ Hs] ->]|(a & Hv & _ & ->)].
    + exists blocks. split; [assumption|].
      rewrite decide_False; [assumption|].
      unfold has_sockets. now rewrite Hs.
    + exists (a :: blocks). cbn in Hout. split.
      * rewrite Hout. cbn. now rewrite <- app_assoc.
      * rewrite decide_True; [now constructor|].
        apply has_sockets_non_skipped.
        destruct (rv_typ _ _ Hv) as (s & _ & _ & Hs & Hne & _). now exists s.
Qed.

Lemma blocks_follow_row_order_witness :
  exists blocks,
    stdout (for_each process_row
              [row_dict full_header w_2295_no_socket; row_dict full_header w_2295_row;
               row_dict full_header gold_5218_row] initial).1 =
      stdout initial ++ (formstring_format <$> blocks) /\
    Forall2 row_values
      (filter (fun data => has_sockets data = true)
         [row_dict full_header w_2295_no_socket; row_dict full_header w_2295_row;
          row_dict full_header gold_5218_row]) blocks.
Proof.
  apply blocks_follow_row_order. vm_compute. reflexivity.
Defined.

(** ** The exceptions of a row *)

Lemma raises_only_bind {A B} (P : exn -> Prop) (c : M A) (k : A -> M B) :
  raises_only P c ->
  (forall a, (exists st st1, c st = (st1, Ok a)) -> raises_only P (k a)) ->
  raises_only P (bind c k).
Proof.
  intros Hc Hk st st' e. unfold bind.
  destruct (c st) as [st1 [a|e1]] eqn:E.
  - apply Hk. eauto.
  - intros [= <- <-]. eapply Hc, E.
Qed.

Lemma never_raises {A} (P : exn -> Prop) (c : M A) :
  (forall st, exists st' a, c st = (st', Ok a)) -> raises_only P c.
Proof. intros Hc st st' e H. destruct (Hc st) as (? & ? & E). congruence. Qed.

Lemma raises_only_getitem (data : gmap string string) (key : string) :
  key ∈ columns -> raises_only (row_exception data) (getitem data key).
Proof.
  intros Hin st st' e. unfold getitem.
  destruct (data !! key) eqn:E; [discriminate|]. now intros [= <- <-].
Qed.

Lemma py_int_raises (s : string) (e : exn) : py_int s = Raise e -> e = ValueError.
Proof.
  unfold py_int. destruct (to_ascii s ≫= int_of_ascii); [discriminate | congruence].
Qed.

Lemma map_int_raises (l : list string) (e : exn) :
  map_int l = Raise e -> e = ValueError.
Proof.
  induction l as [|g l IH]; [discriminate|]. cbn [map_int].
  destruct (py_int g) as [n|e'] eqn:E.
  - destruct (map_int l); [discriminate|]. intros [= <-]. now apply IH.
  - intros [= <-]. now apply py_int_raises in E.
Qed.

Lemma in_columns (key : string) :
  bool_decide (key ∈ columns) = true -> key ∈ columns.
Proof. apply bool_decide_eq_true. Qed.

(** X10.  The exceptions of a row.  A [KeyError] names one of the twelve columns
    the loop body reads, and the row lacks it; the family assertion carries
    the row's Product Collection cell, the two other assertions carry no
    message; the rest is [IndexError] or [ValueError].  So a data line that
    reaches all twelve columns never raises [KeyError]. *)
Theorem row_exceptions (data : gmap string string) (st st' : state) (e : exn) :
  process_row data st = (st', Raise e) ->
  row_exception data e /\
  ((forall key, key ∈ columns -> is_Some (data !! key)) ->
   forall key, e <> KeyError key).
Proof.
  intros H.
  assert (He : row_exception data e).
  { revert st st' e H. fold (raises_only (row_exception data) (process_row data)).
    unfold process_row.
    apply raises_only_bind;
      [apply raises_only_getitem, in_columns; reflexivity | intros cell _].
    apply raises_only_bind.
    { apply never_raises. intros st.
      destruct (price_of_cell_total cell st) as (m & ms & _ & ->). eauto. }
    intros price _.
    apply raises_only_bind;
      [apply raises_only_getitem, in_columns; reflexivity | intros sockets _].
    destruct (String.eqb sockets EmptyString); [apply never_raises; eauto|].
    apply raises_only_bind;
      [apply raises_only_getitem, in_columns; reflexivity | intros name _].
    apply raises_only_bind; [apply never_raises; eauto | intros seen _].
    apply raises_only_bind.
    { intros st st' e. destruct (negb seen); [discriminate|]. now intros [= <- <-]. }
    intros _ _.
    apply raises_only_bind; [apply never_raises; eauto | intros _ _].
    apply raises_only_bind;
      [apply raises_only_getitem, in_columns; reflexivity | intros pc (s0 & s1 & Hpc)].
    apply getitem_ok in Hpc as [Hpc _].
    apply raises_only_bind.
    { intros st st' e.
      destruct (family_cases pc st) as [(tag & _ & ->)|[_ ->]]; [discriminate|].
      intros [= <- <-]. cbn. now rewrite Hpc. }
    intros typ _.
    apply raises_only_bind;
      [apply raises_only_getitem, in_columns; reflexivity | intros scell _].
    apply raises_only_bind.
    { intros st st' e. destruct (findall numberre scell); [|discriminate].
      now intros [= <- <-]. }
    intros m _.
    apply raises_only_bind.
    { intros st st' e [= <- He]. now rewrite (py_int_raises _ _ He). }
    intros scale _.
    apply raises_only_bind.
    { intros st st' e. destruct (scale_ok scale); [discriminate|].
      now intros [= <- <-]. }
    intros _ _.
    apply raises_only_bind;
      [apply raises_only_getitem, in_columns; reflexivity | intros speed _].
    apply raises_only_bind;
      [apply raises_only_getitem, in_columns; reflexivity | intros types _].
    apply raises_only_bind.
    { intros st st' e [= <- He]. now rewrite (map_int_raises _ _ He). }
    intros numbers _.
    apply raises_only_bind.
    { intros st st' e. destruct numbers; [|discriminate]. now intros [= <- <-]. }
    intros mx _.
    apply raises_only_bind;
      [apply raises_only_getitem, in_columns; reflexivity | intros ccell _].
    apply raises_only_bind.
    { intros st st' e [= <- He]. now rewrite (py_int_raises _ _ He). }
    intros chan _.
    apply raises_only_bind;
      [apply raises_only_getitem, in_columns; reflexivity | intros fcell _].
    apply raises_only_bind.
    { intros st st' e. destruct (findall ghzre fcell); [|discriminate].
      now intros [= <- <-]. }
    intros clock _.
    apply raises_only_bind;
      [apply raises_only_getitem, in_columns; reflexivity | intros cell1 _].
    apply raises_only_bind.
    { intros st st' e [= <- He]. now rewrite (py_int_raises _ _ He). }
    intros cores _.
    apply raises_only_bind;
      [apply raises_only_getitem, in_columns; reflexivity | intros cell2 _].
    apply raises_only_bind.
    { intros st st' e [= <- He]. now rewrite (py_int_raises _ _ He). }
    intros threads _.
    apply raises_only_bind;
      [apply raises_only_getitem, in_columns; reflexivity | intros cell3 _].
    apply raises_only_bind.
    { intros st st' e [= <- He]. now rewrite (py_int_raises _ _ He). }
    intros fma _. apply never_raises. eauto. }
  split; [assumption|].
  intros Hall key ->. destruct He as [Hin Hnone].
  destruct (Hall key Hin) as [v Hv]. congruence.
Qed.

Lemma row_exceptions_witness :
  row_exception (row_dict full_header price_only_row) (KeyError "Sockets Supported").
Proof.
  eapply (row_exceptions (row_dict full_header price_only_row) initial initial).
  vm_compute. reflexivity.
Defined.

(** ** When a row is printed *)

Lemma is_max_unique (m m' : Z) (l : list Z) : is_max m l -> is_max m' l -> m = m'.
Proof.
  intros [Hin Hall] [Hin' Hall']. rewrite Forall_forall in Hall, Hall'.
  specialize (Hall _ Hin'). specialize (Hall' _ Hin). lia.
Qed.

Lemma py_max_is_max (l : list Z) (m : Z) (st : state) :
  is_max m l -> py_max l st = (st, Ok m).
Proof.
  intros Hm. destruct l as [|x l]; [destruct Hm as [Hin _]; now apply elem_of_nil in Hin|].
  cbn. now rewrite (is_max_unique _ _ _ (fold_max_is_max l x) Hm).
Qed.

Lemma family_known (pc tag : string) (st : state) :
  (pc, tag) ∈ known_families -> family pc st = (st, Ok tag).
Proof.
  intros Hin. unfold known_families in Hin.
  repeat (apply elem_of_cons in Hin as [[= -> ->]|Hin]; [reflexivity|]).
  now apply elem_of_nil in Hin.
Qed.

(** X11.  The converse of [process_row_ok]: a row whose cells give the ten
    template arguments, with numbers of no more digits than [int] accepts,
    under a name not seen before, prints their block and records the name.
    Together they say when, and what, a row prints. *)
Theorem row_is_printed (data : gmap string string) (a : fields) (st : state) :
  row_values data a ->
  f_name a ∉ observed st ->
  process_row data st =
    (State ({[f_name a]} ∪ observed st) (stdout st ++ [formstring_format a]), Ok tt).
Proof.
  intros [Hname (pcell & pm & pms & Hpcell & Hpm & Hprice)
                (sockets & pc & tag & Hsock & Hne & Hpc & Hfam & Htyp)
                (scell & sm & sms & Hscell & Hsm & Hscale & Hin)
                (speed & types & mx & Hspeed & Htypes & Hmax & Hmem)
                (scell' & sm' & sms' & Hscell' & Hsm' & Hlen)
                (speed' & types' & Hspeed' & Htypes' & Hlens)
                (ccell & Hccell & Hchan) (fcell & fms & Hfcell & Hclock)
                (cell1 & Hcell1 & Hcores) (cell2 & Hcell2 & Hthreads)
                (cell3 & Hcell3 & Hfma)] Hnew.
  rewrite Hscell in Hscell'. injection Hscell' as <-.
  rewrite Hsm in Hsm'. injection Hsm' as <- <-.
  rewrite Hspeed in Hspeed'. injection Hspeed' as <-.
  rewrite Htypes in Htypes'. injection Htypes' as <-.
  destruct a as [name price clock cores threads fma typ scale mem chan]. cbn in *.
  subst price typ scale mem. unfold process_row.
  row_step.
  assert (Hp : price_of_cell pcell st = (st, Ok (float_of_decimal pm)))
    by (unfold price_of_cell; now rewrite Hpm).
  do 2 row_step. apply String.eqb_neq in Hne. rewrite Hne.
  row_step. unfold bind at 1, in_observed. rewrite bool_decide_eq_false_2 by assumption.
  unfold bind at 1. cbn [negb assert ret]. unfold bind at 1, observed_update.
  fold (named name st). row_step.
  rewrite (bind_step _ _ _ _ _ (family_known pc tag _ Hfam)).
  row_step. rewrite Hsm. unfold bind at 1, first, ret.
  unfold bind at 1, lift. rewrite (py_int_first_number _ _ _ Hsm).
  apply Nat.leb_le in Hlen. rewrite Hlen.
  unfold scale_ok. rewrite bool_decide_eq_true_2 by assumption.
  unfold bind at 1. cbn [assert ret].
  do 2 row_step.
  unfold bind at 1. rewrite map_int_numbers.
  apply forallb_length in Hlens. rewrite Hlens.
  rewrite (bind_step _ _ _ _ _ (py_max_is_max _ _ _ Hmax)).
  row_step. unfold bind at 1, lift. rewrite Hchan.
  row_step. rewrite Hclock. unfold bind at 1, first, ret.
  row_step. unfold bind at 1. rewrite Hcores.
  row_step. unfold bind at 1. rewrite Hthreads.
  row_step. unfold bind at 1. rewrite Hfma.
  reflexivity.
Qed.

Lemma row_is_printed_witness :
  process_row (row_dict full_header w_2295_row) initial =
    (State ({["W-2295"]} ∪ ∅) ([] ++ [formstring_format w_2295_printed]), Ok tt).
Proof.
  apply (row_is_printed (row_dict full_header w_2295_row) w_2295_printed initial).
  - constructor; cbn.
    + reflexivity.
    + exists "$1333.00", "1333.00", ["10000000.00"]. splits.
    + exists "1S", "Intel® Xeon® W Processor", "XeonW". splits; [discriminate|].
      apply list_elem_of_further, list_elem_of_further, list_elem_of_here.
    + exists "1S Only", "1", []. splits. apply list_elem_of_here.
    + exists "2933", "DDR4-2933", 2933. splits. unfold is_max.
      replace (map int_of_digits (findall numberre ("2933" +:+ "DDR4-2933")))
        with [2933; 4; 2933] by (vm_compute; reflexivity).
      split; [apply list_elem_of_here | repeat constructor; lia].
    + exists "1S Only", "1", []. splits. apply Nat.leb_le. vm_compute. reflexivity.
    + exists "2933", "DDR4-2933". splits.
      apply forallb_length. vm_compute. reflexivity.
    + exists "4". splits.
    + exists "3.00 GHz", []. splits.
    + exists "18". splits.
    + exists "36". splits.
    + exists "2". splits.
  - cbn. apply not_elem_of_empty.
Defined.

(** ** Numbers and clock rates in cells *)

Lemma digit_value_nonneg (c : ascii) : is_digit c = true -> 0 <= digit_value c <= 9.
Proof.
  destruct c as [[] [] [] [] [] [] [] []]; intros Hc; try discriminate Hc;
    vm_compute; split; discriminate.
Qed.

Lemma fold_digits_nonneg (l : list ascii) (acc : Z) :
  0 <= acc ->
  (forall c, In c l -> is_digit c = true) ->
  0 <= fold_left (fun a c => 10 * a + digit_value c) l acc.
Proof.
  revert acc. induction l as [|c l IH]; intros acc Hacc Hl; [assumption|].
  cbn [fold_left]. apply IH.
  - pose proof (digit_value_nonneg c (Hl c (or_introl eq_refl))). lia.
  - intros c' Hc'. apply Hl. now right.
Qed.

(** X12.  What [int] does with what [numberre] matched.  Every element of
    [numberre.findall(s)] is a non-empty run of ASCII digits whose decimal
    value is not negative; [int] of it is that value when it has at most
    4300 digits, and raises [ValueError] when it has more. *)
Theorem numberre_groups_are_numbers (s g : string) :
  g ∈ findall numberre s ->
  g <> EmptyString /\ all_digits g /\ 0 <= int_of_digits g /\
  ((String.length g <= int_max_str_digits)%nat ->
   py_int g = Ok (int_of_digits g)) /\
  ((int_max_str_digits < String.length g)%nat ->
   py_int g = Raise ValueError).
Proof.
  intros H. apply findall_from_groups in H as (t & len & Ht).
  apply numberre_group_digits in Ht as [Hne Hd].
  pose proof (py_int_digits g Hne Hd) as Hint.
  splits.
  - apply fold_digits_nonneg; [lia | exact Hd].
  - intros Hlen. apply Nat.leb_le in Hlen. now rewrite Hlen in Hint.
  - intros Hlen. apply Nat.leb_gt in Hlen. now rewrite Hlen in Hint.
Qed.

Lemma numberre_groups_are_numbers_witness :
  py_int "2933" = Ok (int_of_digits "2933").
Proof.
  destruct (numberre_groups_are_numbers "DDR4-2933" "2933") as (_ & _ & _ & H & _).
  - apply list_elem_of_further, list_elem_of_here.
  - apply H. apply Nat.leb_le. vm_compute. reflexivity.
Defined.

Lemma findall_numberre_nil (s : string) :
  (forall c, In c (list_ascii_of_string s) -> is_digit c = false) ->
  findall numberre s = [].
Proof.
  induction s as [|c s IH]; [reflexivity|]. intros Hs.
  rewrite findall_cons. unfold numberre at 1. cbn [span_digits].
  rewrite (Hs c) by now left. apply IH. intros c' Hc'. apply Hs. now right.
Qed.

Lemma ghzre_group (t g : string) (len : nat) :
  ghzre t = Some (g, len) ->
  currency g /\ exists rest, t = g +:+ " GHz" +:+ rest.
Proof.
  unfold ghzre. destruct (match_decimal t) as [[g' r]|] eqn:E; [|discriminate].
  apply match_decimal_currency in E as [Hc ->].
  destruct r as [|[[] [] [] [] [] [] [] []] r]; try discriminate.
  destruct r as [|[[] [] [] [] [] [] [] []] r]; try discriminate.
  destruct r as [|[[] [] [] [] [] [] [] []] r]; try discriminate.
  destruct r as [|[[] [] [] [] [] [] [] []] r]; try discriminate.
  intros [= <- _]. split; [assumption|]. now exists r.
Qed.

(** X13.  The clock rate is copied, not converted: the printed text is the
    leftmost stretch of the Processor Base Frequency cell made of digits, a
    point and two digits and followed at once by [ GHz].  A row past the
    skip test whose cell has no such stretch is never printed. *)
Theorem clock_rate_is_copied (data : gmap string string) (st : state) :
  (forall st',
      non_skipped data ->
      process_row data st = (st', Ok tt) ->
      exists a cell pre rest,
        stdout st' = stdout st ++ [formstring_format a] /\
        data !! "Processor Base Frequency" = Some cell /\
        cell = pre +:+ f_clock_rate a +:+ " GHz" +:+ rest /\
        currency (f_clock_rate a) /\
        first_match ghzre cell (f_clock_rate a)) /\
  (forall cell,
      non_skipped data ->
      data !! "Processor Base Frequency" = Some cell ->
      findall ghzre cell = [] ->
      exists st' e, process_row data st = (st', Raise e) /\ stdout st' = stdout st).
Proof.
  split.
  - intros st' (s & Hs & Hne) H.
    apply process_row_ok in H as [[[_ Hs'] _]|(a & Hv & _ & ->)]; [congruence|].
    destruct (rv_clock_rate _ _ Hv) as (cell & ms & Hcell & Hm).
    pose proof (findall_first_match _ _ _ _ Hm) as Hfm.
    destruct Hfm as (pre & t & len & Hsplit & Ht & Hmin).
    destruct (ghzre_group _ _ _ Ht) as (Hcur & rest & Hrest).
    exists a, cell, pre, rest. splits.
    + now rewrite Hsplit, Hrest.
    + exists pre, t, len. splits.
  - intros cell (s & Hs & Hne) Hcell Hnone.
    destruct (process_row_outcome data st)
      as [(st' & e & ? & ?)|[[[_ Hs'] _]|(a & Hv & _ & _)]]; [eauto | congruence |].
    destruct (rv_clock_rate _ _ Hv) as (cell' & ms & Hcell' & Hm). congruence.
Qed.

Lemma clock_rate_is_copied_witness :
  exists a cell pre rest,
    stdout (process_row (row_dict full_header w_2295_row) initial).1 =
      stdout initial ++ [formstring_format a] /\
    row_dict full_header w_2295_row !! "Processor Base Frequency" = Some cell /\
    cell = pre +:+ f_clock_rate a +:+ " GHz" +:+ rest /\
    currency (f_clock_rate a) /\
    first_match ghzre cell (f_clock_rate a).
Proof.
  destruct (clock_rate_is_copied (row_dict full_header w_2295_row) initial) as (H & _).
  apply H.
  - eexists. split; [reflexivity | discriminate].
  - vm_compute. reflexivity.
Defined.

Lemma list_ascii_of_string_append (s t : string) :
  list_ascii_of_string (s +:+ t) = list_ascii_of_string s ++ list_ascii_of_string t.
Proof.
  induction s as [|c s IH]; [reflexivity|].
  rewrite append_cons. cbn [list_ascii_of_string]. now rewrite IH.
Qed.

(** X14.  Cells without a digit where a number is needed.  For a row that has
    got past the name and family checks: a Scalability cell without a digit
    raises [IndexError] ([findall(...)[0]] on an empty list); with a sound
    scalability, memory cells that hold no digit between them raise
    [ValueError] ([max] of an empty sequence, or before that [int] of a
    scalability written with too many digits).  The name is recorded by
    then, nothing is printed. *)
Theorem digit_free_cells_raise
    (data : gmap string string) (st : state) (name pc tag scell : string) :
  is_Some (data !! "Recommended Customer Price") ->
  non_skipped data ->
  data !! "Name" = Some name ->
  name ∉ observed st ->
  data !! "Product Collection" = Some pc ->
  (pc, tag) ∈ known_families ->
  data !! "Scalability" = Some scell ->
  (no_digit scell ->
   process_row data st = (named name st, Raise IndexError)) /\
  (forall m ms speed types,
      findall numberre scell = m :: ms ->
      int_of_digits m ∈ [1; 2; 4; 8] ->
      data !! "Maximum Memory Speed" = Some speed ->
      data !! "Memory Types" = Some types ->
      no_digit speed -> no_digit types ->
      process_row data st = (named name st, Raise ValueError)).
Proof.
  intros [pcell Hc] (s & Hs & Hne) Hn Hnew Hpc Hfam Hcell.
  destruct (price_of_cell_total pcell st) as (m' & ms' & _ & Hp).
  apply String.eqb_neq in Hne.
  split.
  - intros Hnd. unfold process_row.
    do 3 row_step. rewrite Hne.
    row_step. unfold bind at 1, in_observed. rewrite bool_decide_eq_false_2 by assumption.
    unfold bind at 1. cbn [negb assert ret]. unfold bind at 1, observed_update.
    fold (named name st). row_step.
    rewrite (bind_step _ _ _ _ _ (family_known pc tag _ Hfam)).
    row_step. now rewrite (findall_numberre_nil _ Hnd).
  - intros m ms speed types Hm Hin Hspeed Htypes Hnd1 Hnd2. unfold process_row.
    do 3 row_step. rewrite Hne.
    row_step. unfold bind at 1, in_observed. rewrite bool_decide_eq_false_2 by assumption.
    unfold bind at 1. cbn [negb assert ret]. unfold bind at 1, observed_update.
    fold (named name st). row_step.
    rewrite (bind_step _ _ _ _ _ (family_known pc tag _ Hfam)).
    row_step. rewrite Hm. unfold bind at 1, first, ret.
    unfold bind at 1, lift. rewrite (py_int_first_number _ _ _ Hm).
    destruct (String.length m <=? int_max_str_digits)%nat; [|reflexivity].
    unfold scale_ok. rewrite bool_decide_eq_true_2 by assumption.
    unfold bind at 1. cbn [assert ret].
    do 2 row_step.
    rewrite findall_numberre_nil; [reflexivity|].
    intros c Hin'. unfold no_digit in *.
    rewrite list_ascii_of_string_append in Hin'. apply in_app_or in Hin' as [?|?]; auto.
Qed.

Lemma digit_free_cells_raise_witness :
  process_row (<["Scalability" := "Scalable"]> (row_dict full_header w_2295_row)) initial =
    (named "W-2295" initial, Raise IndexError).
Proof.
  eapply (digit_free_cells_raise _ initial "W-2295" "Intel® Xeon® W Processor" "XeonW"
            "Scalable").
  - eexists. reflexivity.
  - eexists. split; [reflexivity | discriminate].
  - reflexivity.
  - cbn. apply not_elem_of_empty.
  - reflexivity.
  - apply list_elem_of_further, list_elem_of_further, list_elem_of_here.
  - reflexivity.
  - intros c Hin. cbn in Hin.
    repeat (destruct Hin as [<-|Hin]; [reflexivity|]). contradiction.
Defined.

(** ** Prices in whole dollars *)

Lemma round_half_even_exact (k q : Z) : 0 < q -> round_half_even (k * q) q = k.
Proof.
  intros Hq. unfold round_half_even.
  rewrite Z.div_mul, Z.mod_mul by lia.
  destruct (Z.compare_spec (2 * 0) q); [lia | reflexivity | lia].
Qed.

Lemma log2_times_100 (n : Z) :
  0 < n -> Z.log2 n + 6 <= Z.log2 (100 * n) <= Z.log2 n + 7.
Proof.
  intros Hn. split.
  - replace (Z.log2 n + 6) with (Z.log2 (n * 2 ^ 6)) by (rewrite Z.log2_mul_pow2; lia).
    apply Z.log2_le_mono. lia.
  - replace (Z.log2 n + 7) with (Z.log2 (n * 2 ^ 7)) by (rewrite Z.log2_mul_pow2; lia).
    apply Z.log2_le_mono. lia.
Qed.

(** [float] of a whole number of dollars below [2 ^ 53] is that number. *)
Lemma binary64_of_whole (n : Z) :
  0 < n < 2 ^ 53 ->
  binary64_of_ratio (100 * n) 100 =
    Finite (n * 2 ^ (52 - Z.log2 n)) (Z.log2 n - 52).
Proof.
  intros Hn. unfold binary64_of_ratio.
  destruct (Z.eqb_spec (100 * n) 0) as [|_]; [lia|].
  change (Z.log2 100) with 6.
  pose proof (log2_times_100 n ltac:(lia)) as HLp.
  pose proof (Z.log2_nonneg n) as HL0.
  assert (HL : Z.log2 n < 53) by (apply Z.log2_lt_pow2; lia).
  destruct (Z.log2_spec n ltac:(lia)) as [Hlo Hhi].
  set (L := Z.log2 n) in *. set (Lp := Z.log2 (100 * n)) in *.
  assert (HP : 2 ^ L * 2 ^ (52 - L) = 2 ^ 52) by (rewrite <- Z.pow_add_r by lia; f_equal; lia).
  assert (HPpos : 0 < 2 ^ (52 - L)) by (apply Z.pow_pos_nonneg; lia).
  replace (2 ^ Z.succ L) with (2 * 2 ^ L) in Hhi by (rewrite Z.pow_succ_r; lia).
  assert (He : (let (n0, d) := scale2 (100 * n) 100 (Lp - 6 - 52) in
                if n0 / d <? 2 ^ 52 then Lp - 6 - 52 - 1 else Lp - 6 - 52) = L - 52).
  { assert (Lp = L + 6 \/ Lp = L + 7) as [->| ->] by lia.
    - replace (L + 6 - 6 - 52) with (L - 52) by lia. unfold scale2.
      destruct (Z.leb_spec 0 (L - 52)).
      + replace (L - 52) with 0 by lia. rewrite Z.pow_0_r, Z.mul_1_r.
        rewrite Z.mul_comm, Z.div_mul by lia.
        destruct (Z.ltb_spec n (2 ^ 52)); [|reflexivity].
        replace (52 - L) with 0 in * by lia. rewrite Z.pow_0_r in HP. lia.
      + replace (- (L - 52)) with (52 - L) by lia.
        replace (100 * n * 2 ^ (52 - L)) with (n * 2 ^ (52 - L) * 100) by lia.
        rewrite Z.div_mul by lia.
        destruct (Z.ltb_spec (n * 2 ^ (52 - L)) (2 ^ 52)); [|reflexivity]. nia.
    - replace (L + 7 - 6 - 52) with (L - 51) by lia. unfold scale2.
      destruct (Z.leb_spec 0 (L - 51)).
      + assert (L = 51 \/ L = 52) as [E|E] by lia; rewrite E in *.
        * change (2 ^ (51 - 51)) with 1. rewrite Z.mul_1_r, Z.mul_comm, Z.div_mul by lia.
          destruct (Z.ltb_spec n (2 ^ 52)); [reflexivity|].
          change (2 ^ 51) with 2251799813685248 in *.
          change (2 ^ 52) with 4503599627370496 in *. lia.
        * change (2 ^ (52 - 51)) with 2. change (100 * 2) with 200.
          destruct (Z.ltb_spec (100 * n / 200) (2 ^ 52)); [reflexivity|].
          assert (100 * n / 200 < 2 ^ 52); [|lia].
          apply Z.div_lt_upper_bound; lia.
      + replace (- (L - 51)) with (51 - L) by lia.
        replace (100 * n * 2 ^ (51 - L)) with (n * 2 ^ (51 - L) * 100) by lia.
        rewrite Z.div_mul by lia.
        assert (HP' : 2 * 2 ^ (51 - L) = 2 ^ (52 - L)).
        { rewrite <- Z.pow_succ_r by lia. f_equal. lia. }
        destruct (Z.ltb_spec (n * 2 ^ (51 - L)) (2 ^ 52)); [lia|]. nia. }
  rewrite He. unfold scale2.
  assert (Hm : (let (n0, d) := if 0 <=? L - 52
                               then (100 * n, 100 * 2 ^ (L - 52))
                               else (100 * n * 2 ^ (- (L - 52)), 100)
                in round_half_even n0 d) = n * 2 ^ (52 - L)).
  { destruct (Z.leb_spec 0 (L - 52)).
    - replace (L - 52) with 0 by lia. replace (52 - L) with 0 by lia.
      rewrite Z.pow_0_r, !Z.mul_1_r. rewrite Z.mul_comm. now apply round_half_even_exact.
    - replace (- (L - 52)) with (52 - L) by lia.
      replace (100 * n * 2 ^ (52 - L)) with (n * 2 ^ (52 - L) * 100) by lia.
      now apply round_half_even_exact. }
  destruct (if 0 <=? L - 52
            then (100 * n, 100 * 2 ^ (L - 52))
            else (100 * n * 2 ^ (- (L - 52)), 100)) as [n0 d].
  rewrite Hm. rewrite Z.max_r by lia. rewrite Z.pow_0_r, Z.mul_1_r.
  destruct (Z.leb_spec (2 ^ 1024) (n * 2 ^ (52 - L))); [|reflexivity].
  assert (n * 2 ^ (52 - L) < 2 ^ 53).
  { replace (2 ^ 53) with (2 * 2 ^ 52) by reflexivity. nia. }
  assert (2 ^ 53 <= 2 ^ 1024) by (apply Z.pow_le_mono_r; lia). lia.
Qed.

Lemma span_digits_digits (d : string) :
  all_digits d -> span_digits d = (d, EmptyString).
Proof.
  induction d as [|c d IH]; intros Hd; [reflexivity|]. cbn [span_digits].
  rewrite (Hd c) by now left. rewrite IH; [reflexivity|].
  intros c' Hc'. apply Hd. now right.
Qed.

Lemma int_of_digits_00 (d : string) :
  int_of_digits (d +:+ "00") = 100 * int_of_digits d.
Proof.
  unfold int_of_digits. rewrite list_ascii_of_string_append, fold_left_app.
  cbn [list_ascii_of_string fold_left]. change (digit_value "0") with 0. lia.
Qed.

Lemma format_whole (n : Z) :
  0 <= n < 2 ^ 53 ->
  format_2f (binary64_of_ratio (100 * n) 100) = str_of_int n +:+ ".00".
Proof.
  intros Hn. destruct (Z.eq_dec n 0) as [->|Hne]; [reflexivity|].
  rewrite binary64_of_whole by lia.
  pose proof (Z.log2_nonneg n) as HL0.
  assert (HL : Z.log2 n < 53) by (apply Z.log2_lt_pow2; lia).
  set (L := Z.log2 n) in *.
  unfold format_2f, scale2.
  destruct (Z.leb_spec 0 (- (L - 52))); [|lia].
  replace (- (L - 52)) with (52 - L) by lia.
  replace (100 * (n * 2 ^ (52 - L))) with (100 * n * 2 ^ (52 - L)) by lia.
  rewrite Z.mul_1_l.
  rewrite round_half_even_exact by (apply Z.pow_pos_nonneg; lia).
  rewrite (Z.mul_comm 100 n), Z.div_mul, Z.mod_mul by lia.
  reflexivity.
Qed.

Lemma match_decimal_whole (d rest : string) :
  d <> EmptyString -> all_digits d ->
  match_decimal (d +:+ ".00" +:+ rest) = Some (d +:+ ".00", rest).
Proof.
  intros Hne Hd. unfold match_decimal.
  change (".00" +:+ rest) with (String "." (String "0" (String "0" rest))).
  rewrite span_digits_app_stop by reflexivity.
  rewrite span_digits_digits by assumption. rewrite append_nil_l.
  now destruct d.
Qed.

(** X15.  A price in whole dollars is printed exactly.  When the first currency
    amount of the price cell is [$d.00], with [d] a run of digits whose
    value is below [2 ^ 53], the conversion to a [float] and back through
    ["{:.2f}"] loses nothing: the block shows the value of [d], without
    leading zeros, followed by [.00]. *)
Theorem whole_dollar_price_is_exact (d pre post : string) (st : state) :
  d <> EmptyString -> all_digits d -> int_of_digits d < 2 ^ 53 ->
  findall pricere pre = [] ->
  exists price,
    price_of_cell (pre +:+ "$" +:+ d +:+ ".00" +:+ post) st = (st, Ok price) /\
    format_2f price = str_of_int (int_of_digits d) +:+ ".00".
Proof.
  intros Hne Hd Hlt Hpre.
  exists (float_of_decimal (d +:+ ".00")). split.
  - unfold price_of_cell. rewrite !append_assoc.
    change ("$" +:+ d +:+ ".00" +:+ post +:+ "$10000000.00")
      with (String "$" (d +:+ ".00" +:+ post +:+ "$10000000.00")).
    rewrite findall_pricere_skip by assumption.
    rewrite findall_cons. unfold pricere at 1.
    rewrite match_decimal_whole by assumption. reflexivity.
  - unfold float_of_decimal.
    change (d +:+ ".00") with (d +:+ String "." "00").
    rewrite span_digits_app_stop by reflexivity.
    rewrite span_digits_digits by assumption. rewrite append_nil_l.
    rewrite int_of_digits_00. change (10 ^ Z.of_nat (String.length "00")) with 100.
    apply format_whole. split; [|assumption].
    apply fold_digits_nonneg; [lia | exact Hd].
Qed.

Lemma whole_dollar_price_is_exact_witness :
  exists price,
    price_of_cell ("from " +:+ "$" +:+ "01333" +:+ ".00" +:+ " each") initial =
      (initial, Ok price) /\
    format_2f price = str_of_int (int_of_digits "01333") +:+ ".00".
Proof.
  apply whole_dollar_price_is_exact.
  - discriminate.
  - intros c Hin. cbn in Hin.
    repeat (destruct Hin as [<-|Hin]; [reflexivity|]). contradiction.
  - vm_compute. reflexivity.
  - reflexivity.
Defined.

(** ** Reading back a written sheet *)

(** A text that starts with no line boundary still starts with none when
    a semicolon or a line feed is put after it. *)
Lemma line_break_len_app (t rest : string) (d : ascii) :
  t <> EmptyString -> line_break_len t = 0%nat ->
  d = ";"%char \/ d = "010"%char \/ d = "013"%char ->
  line_break_len (t +:+ String d rest) = 0%nat.
Proof.
  intros Hne Ht Hd. destruct t as [|c t]; [contradiction|]. clear Hne.
  rewrite append_cons.
  destruct c as [[] [] [] [] [] [] [] []]; try discriminate Ht; try reflexivity.
  - (* 013 *)
    destruct t as [|c2 t]; [discriminate Ht|].
    destruct c2 as [[] [] [] [] [] [] [] []]; discriminate Ht.
  - (* 226 *)
    destruct t as [|c2 t]; [destruct Hd as [->|[->| ->]]; reflexivity|].
    rewrite append_cons.
    destruct c2 as [[] [] [] [] [] [] [] []]; try reflexivity.
    destruct t as [|c3 t]; [destruct Hd as [->|[->| ->]]; reflexivity|].
    rewrite append_cons.
    destruct c3 as [[] [] [] [] [] [] [] []]; try discriminate Ht; reflexivity.
  - (* 194 *)
    destruct t as [|c2 t]; [destruct Hd as [->|[->| ->]]; reflexivity|].
    rewrite append_cons.
    destruct c2 as [[] [] [] [] [] [] [] []]; try discriminate Ht; reflexivity.
Qed.

Lemma no_break_app (a b : string) (d : ascii) :
  no_break a = true -> no_break (String d b) = true ->
  d = ";"%char \/ d = "010"%char \/ d = "013"%char ->
  no_break (a +:+ String d b) = true.
Proof.
  intros Ha Hb Hd. induction a as [|c a IH]; [assumption|].
  cbn [no_break] in Ha. apply andb_true_iff in Ha as [Hc Ha].
  rewrite append_cons. cbn [no_break]. rewrite <- append_cons.
  apply andb_true_iff. split; [|now apply IH].
  apply Nat.eqb_eq. apply Nat.eqb_eq in Hc. now apply line_break_len_app.
Qed.

Lemma no_break_csv_line (cells : list string) :
  Forall safe_cell cells -> no_break (csv_line cells) = true.
Proof.
  induction cells as [|x [|y cells] IH]; intros Hall.
  - reflexivity.
  - apply Forall_cons in Hall as [[Hx _] _]. exact Hx.
  - apply Forall_cons in Hall as [[Hx _] Hall]. specialize (IH Hall).
    unfold csv_line in *. rewrite concat_cons.
    change (";" +:+ String.concat ";" (y :: cells))
      with (String ";" (String.concat ";" (y :: cells))).
    apply no_break_app; [assumption | | now left].
    cbn [no_break]. rewrite IH.
    now destruct (String.concat ";" (y :: cells)).
Qed.

Lemma append_nil_r (s : string) : s +:+ EmptyString = s.
Proof. induction s as [|a s IH]; [reflexivity|]. rewrite append_cons. now f_equal. Qed.

Lemma splitlines_from_line (eol line cur rest : string) :
  eol = nl \/ eol = crlf ->
  no_break line = true ->
  splitlines_from 0 cur (line +:+ eol +:+ rest) =
    (cur +:+ line) :: splitlines_from 0 EmptyString rest.
Proof.
  intros Heol. revert cur. induction line as [|c line IH]; intros cur Hl.
  - rewrite append_nil_l, append_nil_r. destruct Heol as [-> | ->].
    + change (nl +:+ rest) with (String "010" rest). cbn [splitlines_from].
      now replace (line_break_len (String "010" rest)) with 1%nat by now destruct rest.
    + change (crlf +:+ rest) with (String "013" (String "010" rest)).
      reflexivity.
  - cbn [no_break] in Hl. apply andb_true_iff in Hl as [Hc Hl].
    apply Nat.eqb_eq in Hc.
    rewrite append_cons. cbn [splitlines_from]. rewrite <- append_cons.
    assert (Hlb : line_break_len (String c line +:+ eol +:+ rest) = 0%nat).
    { destruct Heol as [-> | ->].
      - change (nl +:+ rest) with (String "010" rest).
        apply line_break_len_app; [discriminate | assumption | auto].
      - change (crlf +:+ rest) with (String "013" (String "010" rest)).
        apply line_break_len_app; [discriminate | assumption | auto]. }
    rewrite Hlb. rewrite IH by assumption. f_equal.
    rewrite append_assoc. reflexivity.
Qed.

Lemma splitlines_csv_text (eol : string) (lines : list (list string)) :
  eol = nl \/ eol = crlf ->
  Forall (Forall safe_cell) lines ->
  splitlines (csv_text eol lines) = csv_line <$> lines.
Proof.
  intros Heol. unfold splitlines.
  induction lines as [|cells lines IH]; intros Hall; [reflexivity|].
  apply Forall_cons in Hall as [Hc Hall]. cbn [csv_text fmap list_fmap].
  rewrite splitlines_from_line by (try assumption; now apply no_break_csv_line).
  rewrite append_nil_l. f_equal. now apply IH.
Qed.

(** X16.  Reading back what was written.  A sheet written from a header and
    data lines whose cells hold no semicolon and no line boundary, every
    line ended by a line feed or by a carriage return and a line feed, is
    read by [process] as exactly those lines: its loop runs over the
    dictionaries of the data lines, in order. *)
Theorem written_sheet_is_read_back
    (eol : string) (header : list string) (rows : list (list string)) :
  eol = nl \/ eol = crlf ->
  Forall (fun cells => cells <> [] /\ Forall safe_cell cells) (header :: rows) ->
  map (split ";") (splitlines (csv_text eol (header :: rows))) = header :: rows /\
  file_rows (csv_text eol (header :: rows)) = dict_zip header <$> rows /\
  (forall fs fn st,
      fs !! fn = Some (csv_text eol (header :: rows)) ->
      process fs fn st = for_each process_row (dict_zip header <$> rows) st).
Proof.
  intros Heol Hall.
  assert (Hlines : map (split ";") (splitlines (csv_text eol (header :: rows))) =
                   header :: rows).
  { rewrite splitlines_csv_text; [|assumption|].
    - induction Hall as [|cells lines [Hne Hc] _ IH]; [reflexivity|].
      cbn [fmap list_fmap map]. f_equal; [|exact IH].
      destruct cells as [|cell cells]; [contradiction|].
      apply join_split. eapply Forall_impl; [exact Hc|]. now intros s [_ Hs].
    - eapply Forall_impl; [exact Hall|]. now intros cells [_ Hc]. }
  assert (Hrows : file_rows (csv_text eol (header :: rows)) = dict_zip header <$> rows)
    by (unfold file_rows; now rewrite Hlines).
  splits. intros fs fn st Hfs.
  unfold process, read_file, bind. rewrite Hfs. cbn [ret first tail].
  rewrite Hlines. cbn. now rewrite for_each_map.
Qed.

Lemma written_sheet_is_read_back_witness :
  file_rows (csv_text crlf [["Name"; "Product Collection"; "Sockets Supported"];
                            ["W-2295"; "Intel® Xeon® W Processor"; EmptyString]]) =
  dict_zip ["Name"; "Product Collection"; "Sockets Supported"] <$>
    [["W-2295"; "Intel® Xeon® W Processor"; EmptyString]].
Proof.
  destruct (written_sheet_is_read_back crlf
              ["Name"; "Product Collection"; "Sockets Supported"]
              [["W-2295"; "Intel® Xeon® W Processor"; EmptyString]]) as (_ & H & _).
  - now right.
  - repeat constructor; try discriminate;
      unfold no_char; cbn; intuition discriminate.
  - exact H.
Defined.

(** ** Independence from what was processed before *)

Lemma for_each_names_fresh (rows : list (gmap string string)) (st st' : state) :
  for_each process_row rows st = (st', Ok tt) ->
  ⋃ (row_name <$> rows) ## observed st.
Proof.
  revert st. induction rows as [|d rows IH]; intros st H; [cbn; set_solver|].
  apply for_each_cons_ok in H as (st1 & Hd & H).
  pose proof (process_row_observed _ _ _ _ Hd) as Hobs.
  apply IH in H. rewrite Hobs in H.
  apply process_row_ok in Hd as [[[_ Hs] _]|(a & Hv & Hnew & _)].
  - assert (row_name d = ∅) as Hn.
    { unfold row_name. rewrite Hs. now destruct (d !! "Name"). }
    cbn. rewrite Hn in *. set_solver.
  - assert (row_name d = {[f_name a]}) as Hn.
    { destruct (rv_typ _ _ Hv) as (s & _ & _ & Hs & Hne & _).
      unfold row_name. rewrite Hs, (rv_name _ _ Hv).
      now destruct (String.eqb_spec s EmptyString). }
    cbn. rewrite Hn in *. set_solver.
Qed.

(** X17.  The blocks of a list of rows do not depend on what was processed
    before.  If the loop over the rows ends normally from one state, then
    from any other state whose seen names are not among the names of these
    rows it ends normally too, appends the same blocks and records the same
    names: earlier output is never read, and earlier names matter only when
    they clash. *)
Theorem blocks_do_not_depend_on_state
    (rows : list (gmap string string)) (st st' st2 : state) :
  for_each process_row rows st = (st', Ok tt) ->
  ⋃ (row_name <$> rows) ## observed st2 ->
  exists blocks,
    stdout st' = stdout st ++ (formstring_format <$> blocks) /\
    for_each process_row rows st2 =
      (State (observed st2 ∪ ⋃ (row_name <$> rows))
             (stdout st2 ++ (formstring_format <$> blocks)), Ok tt).
Proof.
  revert st st2. induction rows as [|d rows IH]; intros st st2 H Hdisj.
  - injection H as <-. exists []. rewrite !app_nil_r. split; [reflexivity|].
    destruct st2 as [obs out]. unfold ret. cbn. now rewrite union_empty_r_L.
  - apply for_each_cons_ok in H as (st1 & Hd & H).
    pose proof (for_each_names_fresh _ _ _ H) as Hfresh.
    apply process_row_ok in Hd as [[Hsk ->]|(a & Hv & Hnew & ->)].
    + assert (row_name d = ∅) as Hn.
      { destruct Hsk as [_ Hs]. unfold row_name. rewrite Hs.
        now destruct (d !! "Name"). }
      cbn in Hdisj. rewrite Hn in Hdisj.
      destruct (IH _ st2 H ltac:(set_solver)) as (blocks & Hout & Hrun).
      exists blocks. split; [assumption|].
      cbn [for_each]. rewrite (bind_step _ _ _ _ _ (skipped_row d st2 Hsk)).
      rewrite Hrun. cbn. rewrite Hn. do 2 f_equal. set_solver.
    + assert (row_name d = {[f_name a]}) as Hn.
      { destruct (rv_typ _ _ Hv) as (s & _ & _ & Hs & Hne & _).
        unfold row_name. rewrite Hs, (rv_name _ _ Hv).
        now destruct (String.eqb_spec s EmptyString). }
      cbn in Hdisj, Hfresh. rewrite Hn in Hdisj.
      assert (Hnew2 : f_name a ∉ observed st2) by set_solver.
      pose proof (row_is_printed d a st2 Hv Hnew2) as Hd2.
      destruct (IH _ (State ({[f_name a]} ∪ observed st2)
                            (stdout st2 ++ [formstring_format a])) H)
        as (blocks & Hout & Hrun); [cbn; set_solver|].
      exists (a :: blocks). cbn in Hout. split.
      * rewrite Hout. cbn. now rewrite <- app_assoc.
      * cbn [for_each]. rewrite (bind_step _ _ _ _ _ Hd2). rewrite Hrun.
        cbn. rewrite Hn, <- app_assoc. do 2 f_equal. set_solver.
Qed.

Lemma blocks_do_not_depend_on_state_witness :
  exists blocks,
    stdout (State {["W-2295"]} [formstring_format w_2295_printed]) =
      stdout initial ++ (formstring_format <$> blocks) /\
    for_each process_row [row_dict full_header w_2295_row]
      (State {["Gold 5218"]} [formstring_format gold_5218_printed]) =
      (State (observed (State {["Gold 5218"]} [formstring_format gold_5218_printed]) ∪
              ⋃ (row_name <$> [row_dict full_header w_2295_row]))
             (stdout (State {["Gold 5218"]} [formstring_format gold_5218_printed]) ++
              (formstring_format <$> blocks)), Ok tt).
Proof.
  apply (blocks_do_not_depend_on_state [row_dict full_header w_2295_row] initial
           (State {["W-2295"]} [formstring_format w_2295_printed])
           (State {["Gold 5218"]} [formstring_format gold_5218_printed])).
  - vm_compute. reflexivity.
  - apply (bool_decide_unpack _). vm_compute. exact I.
Defined.

(** ** Numbers across the two memory cells *)

Lemma findall_from_short (r : regex) (s : string) (skip : nat) :
  (String.length s <= skip)%nat -> findall_from r skip s = [].
Proof.
  revert skip. induction s as [|c s IH]; intros skip Hlen; [reflexivity|].
  cbn in Hlen. destruct skip as [|k]; [lia|]. cbn [findall_from]. apply IH. lia.
Qed.

Lemma span_digits_length (s : string) :
  (String.length (span_digits s).1 <= String.length s)%nat.
Proof.
  induction s as [|c s IH]; cbn [span_digits]; [reflexivity|].
  destruct (is_digit c); [|cbn; lia].
  destruct (span_digits s) as [d r]. cbn in *. lia.
Qed.

Lemma findall_from_numberre_app (a t : string) (skip : nat) :
  (forall c t', t = String c t' -> is_digit c = false) ->
  (skip <= String.length a)%nat ->
  findall_from numberre skip (a +:+ t) =
    findall_from numberre skip a ++ findall numberre t.
Proof.
  intros Ht. revert skip. induction a as [|c a IH]; intros skip Hskip.
  - cbn in Hskip. now replace skip with 0%nat by lia.
  - rewrite append_cons. cbn [findall_from]. cbn in Hskip.
    destruct skip as [|k]; [|apply IH; lia].
    rewrite <- append_cons.
    assert (Hm : numberre (String c a +:+ t) = numberre (String c a)).
    { unfold numberre. destruct t as [|c' t'].
      - now rewrite append_nil_r.
      - rewrite span_digits_app_stop by now apply (Ht c' t').
        now destruct (span_digits (String c a)) as [[|] ?]. }
    rewrite Hm. destruct (numberre (String c a)) as [[g len]|] eqn:E.
    + cbn [app]. f_equal. apply IH.
      unfold numberre in E. pose proof (span_digits_length (String c a)) as Hl.
      destruct (span_digits (String c a)) as [[|d0 d] r]; [discriminate|].
      injection E as <- <-. cbn in Hl |- *. lia.
    + apply IH. lia.
Qed.

Lemma findall_numberre_digits (d : string) :
  d <> EmptyString -> all_digits d -> findall numberre d = [d].
Proof.
  intros Hne Hd. destruct d as [|c d]; [contradiction|].
  rewrite findall_cons. unfold numberre at 1.
  rewrite span_digits_digits by assumption. f_equal.
  apply findall_from_short. cbn. lia.
Qed.

(** X18.  The memory speed is read from the two cells glued together.  When the
    Memory Types cell is empty or starts with something else than a digit,
    the integers found are those of the first cell followed by those of the
    second.  When one cell ends and the other starts with digits, these
    digits are read as a single number: two runs of digits glued together
    give one match. *)
Theorem numbers_of_glued_cells (speed types : string) :
  ((forall c t', types = String c t' -> is_digit c = false) ->
   findall numberre (speed +:+ types) =
     findall numberre speed ++ findall numberre types) /\
  (speed <> EmptyString -> all_digits speed ->
   types <> EmptyString -> all_digits types ->
   findall numberre (speed +:+ types) = [speed +:+ types] /\
   findall numberre speed ++ findall numberre types = [speed; types]).
Proof.
  split.
  - intros Ht. apply findall_from_numberre_app; [assumption | lia].
  - intros Hs Hds Ht Hdt. split.
    + apply findall_numberre_digits.
      * now destruct speed.
      * intros c Hin. rewrite list_ascii_of_string_append in Hin.
        apply in_app_or in Hin as [?|?]; auto.
    + now rewrite !findall_numberre_digits.
Qed.

Lemma numbers_of_glued_cells_witness :
  findall numberre ("2666" +:+ "DDR4-2933") =
    findall numberre "2666" ++ findall numberre "DDR4-2933" /\
  findall numberre ("2666" +:+ "2933") = ["2666" +:+ "2933"].
Proof.
  split.
  - apply numbers_of_glued_cells. now intros c t' [= <- _].
  - apply numbers_of_glued_cells; try discriminate;
      intros c Hin; cbn in Hin;
      repeat (destruct Hin as [<-|Hin]; [reflexivity|]); contradiction.
Defined.
